(** * dynamic-error-handler: the error classification and response pipeline

    A shallow embedding of [src/errorHandler.ts] (the factory
    [createErrorHandler], its built-in classifiers, [logError],
    [sendDevError] and [sendProdError]) together with the properties the
    specification states about them.

    Conventions of the embedding.
    - JavaScript values of type [any] ([err.errors], [err.keyValue], the
      JSON payload handed to [res.json]) are finite trees of type [any].
      An object is the list of its own enumerable properties in
      enumeration order; its prototype is [Object.prototype].
    - A [string] is a sequence of code units; a [number] is an integer
      ([Z]), which is what status codes and driver codes are.
    - The fields the TypeScript interface [ErrorType] declares are record
      fields of the declared type; an optional field is an [option].
    - The registry of classifiers is modelled by its own keys.  Names
      that a plain object inherits from [Object.prototype] are listed in
      [inheritedNames]; what the handler does when the name-based lookup
      reaches such a member is not described, and the properties that
      depend on a name missing the registry exclude them.
    - The handler runs in a small state-and-exception monad over a
      [World]: the heap of error objects, the file system under the
      working directory, the clock, [process.env.NODE_ENV] and the
      responses written so far. *)

From Stdlib Require Import ZArith String Ascii List Bool Lia.
From stdpp Require Import base option list gmap strings pretty.

Set Warnings "-register-all".

Open Scope Z_scope.
Open Scope string_scope.

(** ** JavaScript values *)

Inductive any : Type :=
| VUndefined
| VNull
| VBool (b : bool)
| VNum (n : Z)
| VStr (s : string)
| VArr (elems : list any)
| VObj (props : list (string * any)).

(** What can be thrown: the engine's [TypeError], a failing [fs] call
    (with its [code]), or whatever a caller-supplied classifier throws. *)
Inductive Exception : Type :=
| TypeError (what : string)
| SystemError (code : string)
| UserError (what : string).

Inductive Completion (A : Type) : Type :=
| Normal (a : A)
| Throw (e : Exception).
Arguments Normal {A} a.
Arguments Throw {A} e.

Module JS.

(** [a || b] on an optional number: [undefined], and [0], are falsy. *)
Definition or_num (a : option Z) (b : Z) : Z :=
  match a with
  | Some n => if (n =? 0)%Z then b else n
  | None => b
  end.

(** [a || b] on an optional string: [undefined], and the empty string,
    are falsy. *)
Definition or_str (a : option string) (b : string) : string :=
  match a with
  | Some EmptyString => b
  | Some s => s
  | None => b
  end.

(** Truthiness of an optional boolean field. *)
Definition truthy_bool (a : option bool) : bool :=
  match a with
  | Some b => b
  | None => false
  end.

(** An optional string field read as a value. *)
Definition of_opt_str (a : option string) : any :=
  match a with
  | Some s => VStr s
  | None => VUndefined
  end.

(** [`${a}`] for an optional string field. *)
Definition template_opt_str (a : option string) : string :=
  match a with
  | Some s => s
  | None => "undefined"
  end.

(** [Number::toString] on an integer: its decimal digits.  This is what
    the engine prints for magnitudes below 1e21, which covers status
    codes and driver codes; beyond that the engine switches to exponent
    form, which is not described here. *)
Definition num_to_string (n : Z) : string := pretty n.

(** [Array.prototype.join]. *)
Fixpoint join (sep : string) (parts : list string) : string :=
  match parts with
  | [] => EmptyString
  | [p] => p
  | p :: rest => p ++ sep ++ join sep rest
  end.

Definition has_own (k : string) (props : list (string * any)) : bool :=
  existsb (fun kv => String.eqb (fst kv) k) props.

(** [v[k]] on a value that is not [undefined] or [null]. *)
Fixpoint get_own (k : string) (props : list (string * any)) : any :=
  match props with
  | [] => VUndefined
  | (k', v) :: rest => if String.eqb k' k then v else get_own k rest
  end.

(** [v.message]: reading a property of [undefined] or [null] throws;
    primitives and arrays have no such property. *)
Definition get_prop (v : any) (k : string) : Completion any :=
  match v with
  | VUndefined => Throw (TypeError "Cannot read properties of undefined")
  | VNull => Throw (TypeError "Cannot read properties of null")
  | VObj props => Normal (get_own k props)
  | _ => Normal VUndefined
  end.

(** [Object.values(v)]. *)
Definition Object_values (v : any) : Completion (list any) :=
  match v with
  | VUndefined | VNull =>
      Throw (TypeError "Cannot convert undefined or null to object")
  | VObj props => Normal (map snd props)
  | VArr elems => Normal elems
  | VStr s => Normal (map (fun c => VStr (String c EmptyString)) (list_ascii_of_string s))
  | VBool _ | VNum _ => Normal []
  end.

(** Sequencing of a list of completions: the first throw wins. *)
Fixpoint sequence {A} (l : list (Completion A)) : Completion (list A) :=
  match l with
  | [] => Normal []
  | Normal a :: rest =>
      match sequence rest with
      | Normal r => Normal (a :: r)
      | Throw e => Throw e
      end
  | Throw e :: _ => Throw e
  end.

(** [ToString(v)].  A plain object prints as [[object Object]] unless an
    own (hence non-callable) [toString] property shadows the inherited
    method, in which case the conversion throws. *)
Fixpoint ToString (v : any) : Completion string :=
  match v with
  | VUndefined => Normal "undefined"
  | VNull => Normal "null"
  | VBool true => Normal "true"
  | VBool false => Normal "false"
  | VNum n => Normal (num_to_string n)
  | VStr s => Normal s
  | VArr elems =>
      match sequence (map (fun x => match x with
                                    | VUndefined | VNull => Normal EmptyString
                                    | _ => ToString x
                                    end) elems) with
      | Normal parts => Normal (join "," parts)
      | Throw e => Throw e
      end
  | VObj props =>
      if has_own "toString" props
      then Throw (TypeError "Cannot convert object to primitive value")
      else Normal "[object Object]"
  end.

(** [arr.join(sep)] on an array of values. *)
Definition Array_join (sep : string) (elems : list any) : Completion string :=
  match sequence (map (fun x => match x with
                                | VUndefined | VNull => Normal EmptyString
                                | _ => ToString x
                                end) elems) with
  | Normal parts => Normal (join sep parts)
  | Throw e => Throw e
  end.

Definition hex_digit (n : N) : ascii :=
  match n with
  | 0 => "0" | 1 => "1" | 2 => "2" | 3 => "3" | 4 => "4" | 5 => "5"
  | 6 => "6" | 7 => "7" | 8 => "8" | 9 => "9" | 10 => "a" | 11 => "b"
  | 12 => "c" | 13 => "d" | 14 => "e" | _ => "f"
  end%N%char.

Definition unit_string (c : ascii) : string := String c EmptyString.

Definition backslash : ascii := ascii_of_N 92.
Definition dquote : ascii := ascii_of_N 34.

(** The escape of one code unit in [QuoteJSONString]. *)
Definition escape_unit (c : ascii) : string :=
  let n := N_of_ascii c in
  if (n =? 8)%N then String backslash "b"
  else if (n =? 9)%N then String backslash "t"
  else if (n =? 10)%N then String backslash "n"
  else if (n =? 12)%N then String backslash "f"
  else if (n =? 13)%N then String backslash "r"
  else if (n =? 34)%N then String backslash (unit_string dquote)
  else if (n =? 92)%N then String backslash (unit_string backslash)
  else if (n <? 32)%N
       then String backslash "u00" ++ unit_string (hex_digit (n / 16))
              ++ unit_string (hex_digit (n mod 16))
       else unit_string c.

Fixpoint escape (s : string) : string :=
  match s with
  | EmptyString => EmptyString
  | String c rest => escape_unit c ++ escape rest
  end.

Definition quote (s : string) : string :=
  String dquote (escape s ++ unit_string dquote).

(** [JSON.stringify(v)]; [None] is the result [undefined]. *)
Fixpoint JSON_stringify (v : any) : option string :=
  match v with
  | VUndefined => None
  | VNull => Some "null"
  | VBool true => Some "true"
  | VBool false => Some "false"
  | VNum n => Some (num_to_string n)
  | VStr s => Some (quote s)
  | VArr elems =>
      Some ("[" ++ join "," (map (fun x => match JSON_stringify x with
                                           | Some s => s
                                           | None => "null"
                                           end) elems) ++ "]")
  | VObj props =>
      Some ("{" ++ join "," (flat_map (fun kv => match JSON_stringify (snd kv) with
                                                 | Some s => [quote (fst kv) ++ ":" ++ s]
                                                 | None => []
                                                 end) props) ++ "}")
  end.

End JS.


(** ** The operational error class *)

Module AppError.

(** Modelled from the spec: the class [AppError] of [src/AppError.ts],
    which is imported by [errorHandler.ts] but is not among the sources.
    Per the specification an instance carries a message, a status code
    (default 400), a status category derived from the code ("fail" for
    codes in [400,500), "error" otherwise) and the flag [isOperational],
    always true.  The class extends the built-in [Error], so an instance
    also has a [stack], recorded by the engine at construction, and the
    inherited [name], which is "Error". *)
Record t : Type := mk {
  message : string;
  statusCode : Z;
  status : string;
  isOperational : bool;
  stack : string
}.

(** Modelled from the spec: [AppError.ts] is absent; the specification
    gives the class no [name] of its own, so an instance answers [name]
    with the one it inherits from [Error.prototype]. *)
Definition name : string := "Error".

(** Modelled from the spec: [AppError.ts] is absent; the status category
    is "fail" when the code is in [400,500) and "error" otherwise. *)
Definition statusClass (statusCode : Z) : string :=
  if ((400 <=? statusCode) && (statusCode <? 500))%Z then "fail" else "error".

(** Modelled from the spec: [AppError.ts] is absent; this is
    [new AppError(message, statusCode = 400)].  Message and code are taken
    as given; [captureStackTrace] is the trace text the engine records for
    an error with the given message. *)
Definition new (captureStackTrace : string -> string)
    (message : string) (statusCode : option Z) : t :=
  let statusCode := default 400 statusCode in
  {| message := message;
     statusCode := statusCode;
     status := statusClass statusCode;
     isOperational := true;
     stack := captureStackTrace message |}.

End AppError.

(** ** Raw errors, requests and the world the handler runs in *)

(** [interface ErrorType extends Error], with the [keyValue] payload that
    the duplicate-field classifier reads through [any]. *)
Record ErrorType : Type := {
  name : string;
  message : string;
  stack : option string;
  statusCode : option Z;
  status : option string;
  isOperational : option bool;
  code : option Z;
  errors : any;
  path : option string;
  value : option string;
  keyValue : any
}.

(** An [AppError] instance seen through the interface [ErrorType]. *)
Definition of_AppError (a : AppError.t) : ErrorType :=
  {| name := AppError.name;
     message := AppError.message a;
     stack := Some (AppError.stack a);
     statusCode := Some (AppError.statusCode a);
     status := Some (AppError.status a);
     isOperational := Some (AppError.isOperational a);
     code := None;
     errors := VUndefined;
     path := None;
     value := None;
     keyValue := VUndefined |}.

(** The fields of the Express request that [logError] reads. *)
Record Request : Type := {
  originalUrl : string;
  method : string;
  ip : option string
}.

(** What ["logs/error.log"] is, inside a directory ["logs"]. *)
Inductive LogFile : Type :=
| NoLogFile
| LogFileOf (writable : bool) (content : string).

(** What ["logs"] names in the working directory: nothing, a plain file
    or a directory.  A name that exists without resolving (a dangling
    symbolic link) is not among the states. *)
Inductive LogsEntry : Type :=
| NoEntry
| PlainFile
| Directory (writable : bool) (errorLog : LogFile).

Record FileSystem : Type := {
  cwdWritable : bool;
  logs : LogsEntry
}.

(** One [res.json(body)], with the status code in force when it was sent. *)
Record Response : Type := {
  sentStatus : option Z;
  body : any
}.

Definition loc : Type := positive.

Record World : Type := {
  heap : gmap loc ErrorType;   (* the error objects, by reference *)
  fs : FileSystem;
  now : string;                (* new Date().toISOString() *)
  NODE_ENV : option string;    (* process.env.NODE_ENV *)
  resStatus : option Z;        (* res.statusCode *)
  sent : list Response;        (* bodies written through res, oldest first *)
  nextCalls : nat              (* invocations of the continuation next *)
}.

(** ** The state-and-exception monad *)

Definition M (A : Type) : Type := World -> Completion A * World.

Definition ret {A} (a : A) : M A := fun w => (Normal a, w).

Definition bind {A B} (m : M A) (k : A -> M B) : M B :=
  fun w => match m w with
           | (Normal a, w') => k a w'
           | (Throw e, w') => (Throw e, w')
           end.

Definition lift {A} (c : Completion A) : M A := fun w => (c, w).

Notation "'let*' x := m 'in' k" := (bind m (fun x => k))
  (at level 10, x name, m at level 100, k at level 200).

Definition with_heap (h : gmap loc ErrorType) (w : World) : World :=
  {| heap := h; fs := fs w; now := now w; NODE_ENV := NODE_ENV w;
     resStatus := resStatus w; sent := sent w; nextCalls := nextCalls w |}.

Definition with_fs (f : FileSystem) (w : World) : World :=
  {| heap := heap w; fs := f; now := now w; NODE_ENV := NODE_ENV w;
     resStatus := resStatus w; sent := sent w; nextCalls := nextCalls w |}.

Definition with_res (c : option Z) (out : list Response) (w : World) : World :=
  {| heap := heap w; fs := fs w; now := now w; NODE_ENV := NODE_ENV w;
     resStatus := c; sent := out; nextCalls := nextCalls w |}.

(** Reading the object a reference points to.  The handler is always
    called with a live reference; the other branch is never taken in a
    run the properties below speak about. *)
Definition deref (l : loc) : M ErrorType :=
  fun w => match heap w !! l with
           | Some e => (Normal e, w)
           | None => (Throw (TypeError "dangling reference"), w)
           end.

(** An assignment to a property of the object [l] points to. *)
Definition assign (l : loc) (f : ErrorType -> ErrorType) : M unit :=
  fun w => match heap w !! l with
           | Some e => (Normal tt, with_heap (<[l := f e]> (heap w)) w)
           | None => (Throw (TypeError "dangling reference"), w)
           end.

Definition set_statusCode (c : Z) (e : ErrorType) : ErrorType :=
  {| name := name e; message := message e; stack := stack e;
     statusCode := Some c; status := status e;
     isOperational := isOperational e; code := code e; errors := errors e;
     path := path e; value := value e; keyValue := keyValue e |}.

Definition set_status (s : string) (e : ErrorType) : ErrorType :=
  {| name := name e; message := message e; stack := stack e;
     statusCode := statusCode e; status := Some s;
     isOperational := isOperational e; code := code e; errors := errors e;
     path := path e; value := value e; keyValue := keyValue e |}.

Module Fs.

(** [fs.existsSync("logs")]. *)
Definition existsSync_logs : M bool :=
  fun w => match logs (fs w) with
           | NoEntry => (Normal false, w)
           | _ => (Normal true, w)
           end.

(** [fs.mkdirSync("logs")]. *)
Definition mkdirSync_logs : M unit :=
  fun w => match logs (fs w) with
           | NoEntry =>
               if cwdWritable (fs w)
               then (Normal tt,
                     with_fs {| cwdWritable := cwdWritable (fs w);
                                logs := Directory true NoLogFile |} w)
               else (Throw (SystemError "EACCES"), w)
           | _ => (Throw (SystemError "EEXIST"), w)
           end.

(** [fs.appendFileSync(path.resolve("logs", "error.log"), data)]. *)
Definition appendFileSync_log (data : string) : M unit :=
  fun w => match logs (fs w) with
           | NoEntry => (Throw (SystemError "ENOENT"), w)
           | PlainFile => (Throw (SystemError "ENOTDIR"), w)
           | Directory dw NoLogFile =>
               if dw
               then (Normal tt,
                     with_fs {| cwdWritable := cwdWritable (fs w);
                                logs := Directory dw (LogFileOf true data) |} w)
               else (Throw (SystemError "EACCES"), w)
           | Directory dw (LogFileOf fw content) =>
               if fw
               then (Normal tt,
                     with_fs {| cwdWritable := cwdWritable (fs w);
                                logs := Directory dw (LogFileOf fw (content ++ data)) |} w)
               else (Throw (SystemError "EACCES"), w)
           end.

End Fs.

(** [new Date().toISOString()]. *)
Definition Date_toISOString : M string := fun w => (Normal (now w), w).

Definition getenv_NODE_ENV : M (option string) := fun w => (Normal (NODE_ENV w), w).

Module Res.

(** [res.status(code)]. *)
Definition status (c : option Z) : M unit :=
  fun w => (Normal tt, with_res c (sent w) w).

(** [res.json(body)]. *)
Definition json (b : any) : M unit :=
  fun w => (Normal tt,
            with_res (resStatus w)
                     (sent w ++ [{| sentStatus := resStatus w; body := b |}]) w).

End Res.

(** ** The pipeline *)

Abbreviation HandlerFunction := (ErrorType -> Completion AppError.t).

Record ErrorHandlerOptions : Type := {
  enableLogging : option bool;
  customHandlers : option (gmap string HandlerFunction)
}.

(** The argument default [= {}]. *)
Definition noOptions : ErrorHandlerOptions :=
  {| enableLogging := None; customHandlers := None |}.

Definition nl : string := String (ascii_of_N 10) EmptyString.

(** A run of the handler as the caller sees it. *)
Definition run {A} (m : M A) (w : World) : Completion A * World := m w.

Section Pipeline.

(** The trace text the engine records when an [Error] with the given
    message is constructed. *)
Variable captureStackTrace : string -> string.

Definition newAppError (message : string) (statusCode : Z) : AppError.t :=
  AppError.new captureStackTrace message (Some statusCode).

Definition handleCastError : HandlerFunction := fun err =>
  Normal (newAppError ("Invalid " ++ JS.template_opt_str (path err) ++ ": "
                         ++ JS.template_opt_str (value err) ++ ".") 400).

Definition handleValidationError : HandlerFunction := fun err =>
  match JS.Object_values (errors err) with
  | Throw e => Throw e
  | Normal els =>
      match JS.sequence (map (fun el => JS.get_prop el "message") els) with
      | Throw e => Throw e
      | Normal errors =>
          match JS.Array_join ". " errors with
          | Throw e => Throw e
          | Normal joined =>
              Normal (newAppError ("Invalid input data. " ++ joined) 400)
          end
      end
  end.

Definition handleDuplicateField : HandlerFunction := fun err =>
  let value := JS.JSON_stringify (keyValue err) in
  Normal (newAppError ("Duplicate field value: " ++ JS.template_opt_str value) 400).

Definition handleJsonWebTokenError : HandlerFunction := fun _ =>
  Normal (newAppError "Invalid token. Please log in again." 401).

Definition handleTokenExpiredError : HandlerFunction := fun _ =>
  Normal (newAppError "Token expired. Please log in again." 401).

Definition defaultHandlers : gmap string HandlerFunction :=
  <["CastError" := handleCastError]>
  (<["ValidationError" := handleValidationError]>
  (<["DuplicateField" := handleDuplicateField]>
  (<["JsonWebTokenError" := handleJsonWebTokenError]>
  (<["TokenExpiredError" := handleTokenExpiredError]> ∅)))).

Definition logError (err : ErrorType) (req : Request) : M unit :=
  let* t := Date_toISOString in
  let log := nl ++ "[" ++ t ++ "]" ++ nl
             ++ "URL: " ++ originalUrl req ++ nl
             ++ "Method: " ++ method req ++ nl
             ++ "IP: " ++ JS.template_opt_str (ip req) ++ nl
             ++ "Message: " ++ message err ++ nl
             ++ "Stack: " ++ JS.template_opt_str (stack err) ++ nl in
  let* present := Fs.existsSync_logs in
  let* _ := (if negb present then Fs.mkdirSync_logs else ret tt) in
  Fs.appendFileSync_log log.

Definition sendDevError (err : ErrorType) : M unit :=
  let* _ := Res.status (Some (JS.or_num (statusCode err) 500)) in
  Res.json (VObj [("status", VStr (JS.or_str (status err) "error"));
                  ("message", VStr (message err));
                  ("stack", JS.of_opt_str (stack err))]).

Definition sendProdError (err : ErrorType) : M unit :=
  if JS.truthy_bool (isOperational err)
  then
    let* _ := Res.status (statusCode err) in
    Res.json (VObj [("status", JS.of_opt_str (status err));
                    ("message", VStr (message err))])
  else
    let* _ := Res.status (Some 500) in
    Res.json (VObj [("status", VStr "error");
                    ("message", VStr "Something went very wrong!")]).

(** [{ ...defaultHandlers, ...customHandlers }]: the later spread wins. *)
Definition mergeHandlers (customHandlers : gmap string HandlerFunction)
    : gmap string HandlerFunction :=
  customHandlers ∪ defaultHandlers.

(** [if (err.code === 11000) err = handlers.DuplicateField(err);] *)
Definition classifyByCode (handlers : gmap string HandlerFunction)
    (err : ErrorType) : Completion ErrorType :=
  if decide (code err = Some 11000)
  then match handlers !! "DuplicateField" with
       | Some h => match h err with
                   | Normal a => Normal (of_AppError a)
                   | Throw e => Throw e
                   end
       | None => Throw (TypeError "handlers.DuplicateField is not a function")
       end
  else Normal err.

(** [if (handlers[err.name]) err = handlers[err.name](err);] as far as
    the registry's own keys go.  The registry is a plain object, so for a
    name that [Object.prototype] also defines (see [inheritedNames]) and
    that is not an own key, the source finds the inherited member instead
    of nothing; what calling that member does is not described here, and
    every property below that depends on a name missing the registry
    assumes the name is not one of those. *)
Definition classifyByName (handlers : gmap string HandlerFunction)
    (err : ErrorType) : Completion ErrorType :=
  match handlers !! name err with
  | Some h => match h err with
              | Normal a => Normal (of_AppError a)
              | Throw e => Throw e
              end
  | None => Normal err
  end.

(** Lines 100 to 103 of the handler: the two dispatches in sequence. *)
Definition classify (handlers : gmap string HandlerFunction)
    (err : ErrorType) : Completion ErrorType :=
  match classifyByCode handlers err with
  | Normal err' => classifyByName handlers err'
  | Throw e => Throw e
  end.

(** Lines 93 to 95: the optional log record. *)
Definition logIfEnabled (enableLogging : bool) (err : loc) (req : Request)
    : M unit :=
  if enableLogging
  then let* e := deref err in logError e req
  else ret tt.

(** Lines 97 and 98: the two assignments on the caller's object. *)
Definition normalize (err : loc) : M unit :=
  let* _ := assign err (fun e => set_statusCode (JS.or_num (statusCode e) 500) e) in
  assign err (fun e => set_status (JS.or_str (status e) "error") e).

(** Lines 105 to 109: the choice of formatter. *)
Definition respond (err : ErrorType) : M unit :=
  let* env := getenv_NODE_ENV in
  if decide (env = Some "development")
  then sendDevError err
  else sendProdError err.

(** The exported factory; [err] is the reference the caller passes. *)
Definition createErrorHandler (options : ErrorHandlerOptions)
    : loc -> Request -> M unit :=
  let enableLogging := default true (enableLogging options) in
  let customHandlers := default ∅ (customHandlers options) in
  let handlers := mergeHandlers customHandlers in
  fun err req =>
    let* _ := logIfEnabled enableLogging err req in
    let* _ := normalize err in
    let* e := deref err in
    let* e := lift (classify handlers e) in
    respond e.

(** The content of the caller's object after lines 97 and 98. *)
Definition normalized (e : ErrorType) : ErrorType :=
  let e1 := set_statusCode (JS.or_num (statusCode e) 500) e in
  set_status (JS.or_str (status e1) "error") e1.

(** The response the formatter writes: [sendDevError] when [verbose],
    [sendProdError] otherwise. *)
Definition formatted (verbose : bool) (e : ErrorType) : Response :=
  if verbose
  then {| sentStatus := Some (JS.or_num (statusCode e) 500);
          body := VObj [("status", VStr (JS.or_str (status e) "error"));
                        ("message", VStr (message e));
                        ("stack", JS.of_opt_str (stack e))] |}
  else if JS.truthy_bool (isOperational e)
       then {| sentStatus := statusCode e;
               body := VObj [("status", JS.of_opt_str (status e));
                             ("message", VStr (message e))] |}
       else {| sentStatus := Some 500;
               body := VObj [("status", VStr "error");
                             ("message", VStr "Something went very wrong!")] |}.

(** [process.env.NODE_ENV === "development"]. *)
Definition verbose_of (env : option string) : bool :=
  bool_decide (env = Some "development").

(** The world after one [res.status(c).json(b)]. *)
Definition after_send (r : Response) (w : World) : World :=
  with_res (sentStatus r) (sent w ++ [r]) w.

(** The registry a handler built from [options] dispatches on. *)
Definition handlersOf (options : ErrorHandlerOptions)
    : gmap string HandlerFunction :=
  mergeHandlers (default ∅ (customHandlers options)).

End Pipeline.

(** ** Sample inputs *)

Definition sampleTrace (m : string) : string :=
  "Error: " ++ m ++ nl ++ "    at <anonymous>".

Definition sampleRequest : Request :=
  {| originalUrl := "/api/users"; method := "POST"; ip := Some "::1" |}.

Definition plainError (n m : string) : ErrorType :=
  {| name := n; message := m; stack := Some ("Error: " ++ m);
     statusCode := None; status := None; isOperational := None;
     code := None; errors := VUndefined; path := None; value := None;
     keyValue := VUndefined |}.

Definition with_errors (v : any) (e : ErrorType) : ErrorType :=
  {| name := name e; message := message e; stack := stack e;
     statusCode := statusCode e; status := status e;
     isOperational := isOperational e; code := code e; errors := v;
     path := path e; value := value e; keyValue := keyValue e |}.

Definition with_duplicate (kv : any) (e : ErrorType) : ErrorType :=
  {| name := name e; message := message e; stack := stack e;
     statusCode := statusCode e; status := status e;
     isOperational := isOperational e; code := Some 11000; errors := errors e;
     path := path e; value := value e; keyValue := kv |}.

(** The validation failure of the specification's example. *)
Definition sampleValidation : ErrorType :=
  with_errors (VObj [("a", VObj [("message", VStr "A required")]);
                     ("b", VObj [("message", VStr "B invalid")])])
              (plainError "ValidationError" "Validation failed").

(** A validation failure whose [errors] field is absent. *)
Definition bareValidation : ErrorType :=
  plainError "ValidationError" "Validation failed".

(** A driver error for a unique-constraint violation. *)
Definition sampleDuplicate : ErrorType :=
  with_duplicate (VObj [("email", VStr "a@b.c")])
                 (plainError "MongoServerError" "E11000 duplicate key error").

(** A registry entry for the generic name [Error]. *)
Definition genericErrorHandler : HandlerFunction := fun _ =>
  Normal (AppError.new sampleTrace "Internal failure" (Some 500)).

Definition sampleWorld (e : ErrorType) (f : FileSystem) (env : option string)
    : World :=
  {| heap := {[ 1%positive := e ]}; fs := f;
     now := "2024-01-01T00:00:00.000Z"; NODE_ENV := env;
     resStatus := Some 200; sent := []; nextCalls := 0 |}.

Definition emptyDisk : FileSystem := {| cwdWritable := true; logs := NoEntry |}.

(** A working directory in which [logs] is a plain file. *)
Definition blockedDisk : FileSystem := {| cwdWritable := true; logs := PlainFile |}.

Definition loggingOn : ErrorHandlerOptions := noOptions.

Definition loggingOff : ErrorHandlerOptions :=
  {| enableLogging := Some false; customHandlers := None |}.

(** ** Observations on the log file and the registry *)

(** The record [logError] builds from the clock reading, the request and
    the error (the template literal of lines 49 to 56). *)
Definition logRecord (t : string) (req : Request) (err : ErrorType) : string :=
  nl ++ "[" ++ t ++ "]" ++ nl
  ++ "URL: " ++ originalUrl req ++ nl
  ++ "Method: " ++ method req ++ nl
  ++ "IP: " ++ JS.template_opt_str (ip req) ++ nl
  ++ "Message: " ++ message err ++ nl
  ++ "Stack: " ++ JS.template_opt_str (stack err) ++ nl.

(** The text of [logs/error.log]; empty when there is no such file. *)
Definition logContent (f : FileSystem) : string :=
  match logs f with
  | Directory _ (LogFileOf _ content) => content
  | _ => EmptyString
  end.

(** The names of the members every plain object inherits from
    [Object.prototype].  For one of these, [handlers[err.name]] is not
    undefined even when the registry has no such key. *)
Definition inheritedNames : list string :=
  ["constructor"; "__defineGetter__"; "__defineSetter__"; "hasOwnProperty";
   "__lookupGetter__"; "__lookupSetter__"; "isPrototypeOf";
   "propertyIsEnumerable"; "toString"; "valueOf"; "__proto__";
   "toLocaleString"].

Definition isInheritedName (n : string) : bool :=
  existsb (String.eqb n) inheritedNames.

(** The lookups of lines 100 to 103 stay among the registry's own keys:
    either the error has code 11000, and the name looked up is that of
    the synthesized error, or its name is not an inherited one. *)
Definition ownKeyDispatch (e : ErrorType) : bool :=
  bool_decide (code e = Some 11000) || negb (isInheritedName (name e)).

(** The text [res.json(body)] puts on the wire, with the application's
    default JSON settings: [JSON.stringify(body)]. *)
Definition responseText (r : Response) : option string :=
  JS.JSON_stringify (body r).

(** One member of a JSON object text. *)
Definition jsonMember (k v : string) : string :=
  JS.quote k ++ ":" ++ JS.quote v.

(** The discriminators of the built-in classifiers. *)
Definition builtinNames : gset string :=
  {[ "CastError"; "ValidationError"; "DuplicateField";
     "JsonWebTokenError"; "TokenExpiredError" ]}.

(** The payload of the restricted response to an unexpected fault. *)
Definition genericResponse : Response :=
  {| sentStatus := Some 500;
     body := VObj [("status", VStr "error");
                   ("message", VStr "Something went very wrong!")] |}.

(** A raw error as application code raises it through [AppError]. *)
Definition raisedAppError (m : string) (c : Z) : ErrorType :=
  of_AppError (AppError.new sampleTrace m (Some c)).

(** A cast failure on the field [id]. *)
Definition sampleCast : ErrorType :=
  {| name := "CastError"; message := "Cast to ObjectId failed"; stack := None;
     statusCode := None; status := None; isOperational := None;
     code := None; errors := VUndefined; path := Some "id"; value := Some "xyz";
     keyValue := VUndefined |}.

(** A validation failure whose first entry has no [message]. *)
Definition partialValidation : ErrorType :=
  with_errors (VObj [("a", VObj []);
                     ("b", VObj [("message", VStr "B invalid")])])
              (plainError "ValidationError" "Validation failed").

(** A validation failure with a null entry. *)
Definition brokenValidation : ErrorType :=
  with_errors (VObj [("a", VObj [("message", VStr "A required")]);
                     ("b", VNull)])
              (plainError "ValidationError" "Validation failed").

(** A read-only working directory with a log file already in use. *)
Definition usedDisk : FileSystem :=
  {| cwdWritable := false;
     logs := Directory false (LogFileOf true "earlier records") |}.

(** ** Properties *)

Section Properties.

Variable captureStackTrace : string -> string.

Local Abbreviation handler := (createErrorHandler captureStackTrace).
Local Abbreviation registry := (handlersOf captureStackTrace).

(** *** The stages of a run *)

(** Logging touches the file system only. *)
Lemma logError_frame e req w :
  let w' := snd (run (logError e req) w) in
  heap w' = heap w /\ sent w' = sent w /\ resStatus w' = resStatus w
  /\ NODE_ENV w' = NODE_ENV w /\ nextCalls w' = nextCalls w.
Proof.
  unfold run, logError, bind, Date_toISOString, Fs.existsSync_logs,
    Fs.mkdirSync_logs, Fs.appendFileSync_log, ret.
  destruct w as [h [cw lg] t env rs out nx]; simpl.
  destruct lg as [| | dw [| fw c]]; simpl;
    repeat match goal with
           | |- context [if ?b then _ else _] => destruct b; simpl
           end; auto.
Qed.

Lemma logIfEnabled_frame b l req w :
  let w' := snd (run (logIfEnabled b l req) w) in
  heap w' = heap w /\ sent w' = sent w /\ resStatus w' = resStatus w
  /\ NODE_ENV w' = NODE_ENV w /\ nextCalls w' = nextCalls w.
Proof.
  unfold logIfEnabled. destruct b; [| simpl; auto].
  unfold run, bind, deref. destruct (heap w !! l) as [e |]; [| simpl; auto].
  apply logError_frame.
Qed.

Lemma sendDevError_run e w :
  run (sendDevError e) w = (Normal tt, after_send (formatted true e) w).
Proof. reflexivity. Qed.

Lemma sendProdError_run e w :
  run (sendProdError e) w = (Normal tt, after_send (formatted false e) w).
Proof.
  unfold run, sendProdError, formatted.
  destruct (JS.truthy_bool (isOperational e)); reflexivity.
Qed.

(** A response is written exactly once, by the formatter the mode selects. *)
Lemma respond_run e w :
  run (respond e) w
  = (Normal tt, after_send (formatted (verbose_of (NODE_ENV w)) e) w).
Proof.
  unfold run, respond, bind, getenv_NODE_ENV, verbose_of.
  destruct (decide (NODE_ENV w = Some "development")) as [H | H].
  - rewrite bool_decide_eq_true_2 by done. apply sendDevError_run.
  - rewrite bool_decide_eq_false_2 by done. apply sendProdError_run.
Qed.

(** The whole handler, stage by stage, on a live reference. *)
Lemma handler_run options l req w e :
  heap w !! l = Some e ->
  run (handler options l req) w =
  match run (logIfEnabled (default true (enableLogging options)) l req) w with
  | (Throw x, w1) => (Throw x, w1)
  | (Normal _, w1) =>
      let w2 := with_heap (<[l := normalized e]> (heap w1)) w1 in
      match classify (registry options) (normalized e) with
      | Throw x => (Throw x, w2)
      | Normal e' => run (respond e') w2
      end
  end.
Proof.
  intros Hl. unfold run, createErrorHandler, bind at 1.
  pose proof (logIfEnabled_frame (default true (enableLogging options)) l req w)
    as (Hh & _).
  unfold run in Hh.
  destruct (logIfEnabled _ l req w) as [[[] | x] w1]; [| reflexivity].
  simpl in Hh.
  unfold normalize, bind, assign, deref, lift; simpl.
  rewrite Hh, Hl; simpl.
  rewrite lookup_insert_eq; simpl.
  rewrite lookup_insert_eq, insert_insert_eq; simpl.
  unfold handlersOf, normalized.
  destruct (classify _ _); reflexivity.
Qed.

Lemma registry_default_Error :
  defaultHandlers captureStackTrace !! AppError.name = None.
Proof. reflexivity. Qed.

Lemma registry_default_DuplicateField :
  defaultHandlers captureStackTrace !! "DuplicateField"
  = Some (handleDuplicateField captureStackTrace).
Proof. reflexivity. Qed.

Lemma registry_default_ValidationError :
  defaultHandlers captureStackTrace !! "ValidationError"
  = Some (handleValidationError captureStackTrace).
Proof. reflexivity. Qed.

(** A key the caller did not supply is looked up among the built-ins. *)
Lemma mergeHandlers_miss custom k :
  custom !! k = None ->
  mergeHandlers captureStackTrace custom !! k
  = defaultHandlers captureStackTrace !! k.
Proof. intros H. unfold mergeHandlers. by apply lookup_union_r. Qed.

(** A key the caller supplied shadows the built-in. *)
Lemma mergeHandlers_hit custom k f :
  custom !! k = Some f ->
  mergeHandlers captureStackTrace custom !! k = Some f.
Proof. intros H. unfold mergeHandlers. by apply lookup_union_Some_l. Qed.

(** *** The operational error class *)

(** C6. For every message and every integer status code,
    [new AppError(message, statusCode)] has status category "fail" when
    the code lies in [400,500) and "error" for every code outside that
    range, is always operational, and keeps the message and the code as
    given; an omitted code defaults to 400. *)
Theorem AppError_new_contract (m : string) (sc : Z) :
  let e := AppError.new captureStackTrace m (Some sc) in
  AppError.isOperational e = true
  /\ AppError.message e = m
  /\ AppError.statusCode e = sc
  /\ (400 <= sc < 500 -> AppError.status e = "fail")
  /\ (sc < 400 \/ 500 <= sc -> AppError.status e = "error")
  /\ AppError.new captureStackTrace m None
     = AppError.new captureStackTrace m (Some 400).
Proof.
  simpl. repeat split; try reflexivity.
  - intros [Hlo Hhi]. unfold AppError.statusClass.
    apply Z.leb_le in Hlo. apply Z.ltb_lt in Hhi. by rewrite Hlo, Hhi.
  - intros H. unfold AppError.statusClass.
    destruct (400 <=? sc)%Z eqn:Hlo; [| reflexivity].
    destruct (sc <? 500)%Z eqn:Hhi; [| reflexivity].
    apply Z.leb_le in Hlo. apply Z.ltb_lt in Hhi. lia.
Qed.

(** *** Classification *)


(** Without the duplicate-key code only the name decides. *)
Lemma classify_other_code handlers e :
  code e <> Some 11000 ->
  classify handlers e = classifyByName handlers e.
Proof.
  intros H. unfold classify, classifyByCode.
  destruct (decide (code e = Some 11000)); [contradiction | reflexivity].
Qed.

(** With the duplicate-key code the name-based lookup runs on the result
    of the duplicate-field classifier. *)
Lemma classify_duplicate_code handlers e h a :
  code e = Some 11000 ->
  handlers !! "DuplicateField" = Some h ->
  h e = Normal a ->
  classify handlers e = classifyByName handlers (of_AppError a).
Proof.
  intros Hc Hh Ha. unfold classify, classifyByCode.
  destruct (decide (code e = Some 11000)); [| contradiction].
  by rewrite Hh, Ha.
Qed.

(** C1 (as amended). The dispatch is code-first but not exclusive: with
    code 11000 the duplicate-field classifier is applied first, whatever
    the name, and the name-based lookup then runs on its result, whose
    name is "Error".  When the caller registered nothing under
    "DuplicateField" or "Error", the outcome is the operational error with
    status 400 whose message is "Duplicate field value: " followed by the
    serialized [keyValue], and no second classifier transforms it.  With
    any other code only the name-based lookup is applied. *)
Theorem classify_code_first (custom : gmap string HandlerFunction) (e : ErrorType) :
  let handlers := mergeHandlers captureStackTrace custom in
  (code e = Some 11000 ->
   forall h a, handlers !! "DuplicateField" = Some h -> h e = Normal a ->
     classifyByCode handlers e = Normal (of_AppError a)
     /\ classify handlers e = classifyByName handlers (of_AppError a)
     /\ name (of_AppError a) = "Error")
  /\ (code e = Some 11000 ->
      custom !! "DuplicateField" = None ->
      custom !! AppError.name = None ->
      exists a,
        classifyByCode handlers e = Normal (of_AppError a)
        /\ classify handlers e = Normal (of_AppError a)
        /\ AppError.statusCode a = 400
        /\ AppError.isOperational a = true
        /\ AppError.message a
           = "Duplicate field value: "
             ++ JS.template_opt_str (JS.JSON_stringify (keyValue e)))
  /\ (code e <> Some 11000 -> classify handlers e = classifyByName handlers e).
Proof.
  intros handlers. split; [| split].
  - intros Hc h a Hh Ha. split; [| split; [| reflexivity]].
    + unfold classifyByCode.
      destruct (decide (code e = Some 11000)); [| contradiction].
      by rewrite Hh, Ha.
    + by apply (classify_duplicate_code _ _ h).
  - intros Hc Hd He.
    assert (Hh : handlers !! "DuplicateField"
                 = Some (handleDuplicateField captureStackTrace)).
    { unfold handlers. rewrite mergeHandlers_miss by done.
      apply registry_default_DuplicateField. }
    eexists. split.
    { unfold classifyByCode.
      destruct (decide (code e = Some 11000)); [| contradiction].
      rewrite Hh. reflexivity. }
    split.
    { erewrite classify_duplicate_code by (try eassumption; reflexivity).
      unfold classifyByName. simpl.
      unfold handlers. rewrite mergeHandlers_miss by done.
      rewrite registry_default_Error. reflexivity. }
    repeat split.
  - apply classify_other_code.
Qed.

Lemma validation_messages props msgs :
  Forall2 (fun (kv : string * any) (m : string) =>
             exists fields, snd kv = VObj fields
                            /\ JS.get_own "message" fields = VStr m) props msgs ->
  JS.sequence (map (fun el => JS.get_prop el "message") (map snd props))
  = Normal (map VStr msgs).
Proof.
  induction 1 as [| kv m props msgs (fields & Hkv & Hm) _ IH]; [reflexivity |].
  simpl. rewrite Hkv. simpl. rewrite IH, Hm. reflexivity.
Qed.

Lemma Array_join_strings sep msgs :
  JS.Array_join sep (map VStr msgs) = Normal (JS.join sep msgs).
Proof.
  unfold JS.Array_join.
  assert (H : JS.sequence
                (map (fun x => match x with
                               | VUndefined | VNull => Normal EmptyString
                               | _ => JS.ToString x
                               end) (map VStr msgs)) = Normal msgs).
  { induction msgs as [| m msgs IH]; [reflexivity |]. simpl.
    simpl in IH. rewrite IH. reflexivity. }
  by rewrite H.
Qed.

(** C7 (as amended). For a raw error named "ValidationError", with a
    code other than 11000 and no custom classifier registered under that
    name, whose [errors] is a non-empty mapping in which every entry
    carries a [message], classification yields an operational error with
    status 400 whose message is "Invalid input data. " followed by the
    entries' messages joined with ". "; nothing follows the last
    message. *)
Theorem validation_error_message (custom : gmap string HandlerFunction)
    (e : ErrorType) (props : list (string * any)) (msgs : list string) :
  name e = "ValidationError" ->
  code e <> Some 11000 ->
  custom !! "ValidationError" = None ->
  errors e = VObj props ->
  props <> [] ->
  Forall2 (fun (kv : string * any) (m : string) =>
             exists fields, snd kv = VObj fields
                            /\ JS.get_own "message" fields = VStr m) props msgs ->
  exists a,
    classify (mergeHandlers captureStackTrace custom) e = Normal (of_AppError a)
    /\ AppError.message a = "Invalid input data. " ++ JS.join ". " msgs
    /\ AppError.statusCode a = 400
    /\ AppError.isOperational a = true.
Proof.
  intros Hn Hc Hcustom He _ Hall.
  rewrite classify_other_code by done. unfold classifyByName.
  rewrite Hn, mergeHandlers_miss by done.
  rewrite registry_default_ValidationError.
  unfold handleValidationError. rewrite He. simpl.
  rewrite (validation_messages _ _ Hall), Array_join_strings.
  eexists. repeat split; reflexivity.
Qed.


(** *** Formatting *)

(** C4 (as amended). In verbose mode the payload handed to [res.json]
    has the three properties status, message and stack.  For an error
    that has a stack, operational or not, the [stack] property is that
    very trace and the JSON text sent carries it; for an error without a
    stack the property is undefined and the JSON text has the members
    status and message only.  In restricted mode the payload has the
    properties status and message, never a [stack]. *)
Theorem trace_only_when_verbose (e : ErrorType) (w : World) :
  (exists c props,
     run (sendDevError e) w
     = (Normal tt, after_send {| sentStatus := c; body := VObj props |} w)
     /\ map fst props = ["status"; "message"; "stack"]
     /\ (forall s, stack e = Some s ->
           JS.get_own "stack" props = VStr s
           /\ JS.JSON_stringify (VObj props)
              = Some ("{" ++ JS.join ","
                               [jsonMember "status" (JS.or_str (status e) "error");
                                jsonMember "message" (message e);
                                jsonMember "stack" s] ++ "}"))
     /\ (stack e = None ->
           JS.get_own "stack" props = VUndefined
           /\ JS.JSON_stringify (VObj props)
              = Some ("{" ++ JS.join ","
                               [jsonMember "status" (JS.or_str (status e) "error");
                                jsonMember "message" (message e)] ++ "}")))
  /\ (exists c props,
        run (sendProdError e) w
        = (Normal tt, after_send {| sentStatus := c; body := VObj props |} w)
        /\ map fst props = ["status"; "message"]
        /\ JS.has_own "stack" props = false).
Proof.
  split.
  - eexists _, _. split; [apply sendDevError_run |].
    split; [reflexivity |]. split.
    + intros s Hs. simpl. rewrite Hs. split; reflexivity.
    + intros Hs. simpl. rewrite Hs. split; reflexivity.
  - rewrite sendProdError_run. unfold formatted.
    destruct (JS.truthy_bool (isOperational e));
      eexists _, _; (split; [reflexivity | split; reflexivity]).
Qed.

(** C5. In restricted mode an error whose [isOperational] is not true is
    answered with status 500 and the fixed payload, whatever its message,
    stack or status code. *)
Theorem nonoperational_is_generic (e : ErrorType) (w : World) :
  isOperational e <> Some true ->
  run (sendProdError e) w
  = (Normal tt,
     after_send {| sentStatus := Some 500;
                   body := VObj [("status", VStr "error");
                                 ("message", VStr "Something went very wrong!")] |}
                w).
Proof.
  intros H. rewrite sendProdError_run. unfold formatted.
  destruct (isOperational e) as [[] |]; simpl; [congruence | reflexivity ..].
Qed.

(** *** The pipeline *)

Lemma normalized_fields e :
  name (normalized e) = name e /\ message (normalized e) = message e
  /\ stack (normalized e) = stack e /\ code (normalized e) = code e
  /\ isOperational (normalized e) = isOperational e
  /\ errors (normalized e) = errors e /\ keyValue (normalized e) = keyValue e
  /\ path (normalized e) = path e /\ value (normalized e) = value e
  /\ statusCode (normalized e) = Some (JS.or_num (statusCode e) 500)
  /\ status (normalized e) = Some (JS.or_str (status e) "error").
Proof. repeat split. Qed.

(** A failing log write ends the run before anything else happens. *)
Lemma handler_log_failure options l req w e x w1 :
  heap w !! l = Some e ->
  run (logIfEnabled (default true (enableLogging options)) l req) w = (Throw x, w1) ->
  run (handler options l req) w = (Throw x, w1)
  /\ sent w1 = sent w /\ heap w1 = heap w.
Proof.
  intros Hl Hlog. rewrite (handler_run _ _ _ _ _ Hl), Hlog.
  pose proof (logIfEnabled_frame (default true (enableLogging options)) l req w)
    as (Hh & Hs & _).
  rewrite Hlog in Hh, Hs. auto.
Qed.

(** A failing classifier ends the run after the normalization and before
    any response. *)
Lemma handler_classifier_failure options l req w e w1 x :
  heap w !! l = Some e ->
  run (logIfEnabled (default true (enableLogging options)) l req) w = (Normal tt, w1) ->
  classify (registry options) (normalized e) = Throw x ->
  exists w', run (handler options l req) w = (Throw x, w')
             /\ sent w' = sent w
             /\ heap w' !! l = Some (normalized e).
Proof.
  intros Hl Hlog Hc. rewrite (handler_run _ _ _ _ _ Hl), Hlog. simpl. rewrite Hc.
  pose proof (logIfEnabled_frame (default true (enableLogging options)) l req w)
    as (_ & Hs & _).
  rewrite Hlog in Hs. eexists. split; [reflexivity |]. simpl.
  split; [done | apply lookup_insert_eq].
Qed.

(** The built-in validation classifier on an error without [errors]. *)
Lemma handleValidationError_no_errors e :
  errors e = VUndefined \/ errors e = VNull ->
  handleValidationError captureStackTrace e
  = Throw (TypeError "Cannot convert undefined or null to object").
Proof. unfold handleValidationError. by intros [-> | ->]. Qed.

(** C2 (as amended). There is no exception handling in the handler.
    For an error whose dispatch stays among the registry's own keys (code
    11000, or a name that is not one of those inherited from
    [Object.prototype]): whenever the log write (if enabled) succeeds and
    the classifier the error is dispatched to returns, the handler does
    not throw, writes the status code and the JSON payload exactly once
    and never calls the continuation; when that classifier throws, the
    handler ends with its exception and no response is written, which is
    what happens for an error named "ValidationError" whose [errors] is
    absent. *)
Theorem handler_responds_once (options : ErrorHandlerOptions) (l : loc)
    (req : Request) (w w1 : World) (e : ErrorType) :
  heap w !! l = Some e ->
  run (logIfEnabled (default true (enableLogging options)) l req) w = (Normal tt, w1) ->
  ownKeyDispatch e = true ->
  match classify (registry options) (normalized e) with
  | Normal e' =>
      exists r props w',
        run (handler options l req) w = (Normal tt, w')
        /\ sent w' = (sent w ++ [r])%list
        /\ resStatus w' = sentStatus r
        /\ body r = VObj props
        /\ r = formatted (verbose_of (NODE_ENV w)) e'
        /\ nextCalls w' = nextCalls w
  | Throw x =>
      exists w',
        run (handler options l req) w = (Throw x, w')
        /\ sent w' = sent w
        /\ nextCalls w' = nextCalls w
  end
  /\ (name e = "ValidationError" ->
      code e <> Some 11000 ->
      errors e = VUndefined \/ errors e = VNull ->
      registry options !! "ValidationError"
      = Some (handleValidationError captureStackTrace) ->
      classify (registry options) (normalized e)
      = Throw (TypeError "Cannot convert undefined or null to object")).
Proof.
  intros Hl Hlog _. split.
  - rewrite (handler_run _ _ _ _ _ Hl), Hlog. simpl.
    pose proof (logIfEnabled_frame (default true (enableLogging options)) l req w)
      as (_ & Hs & _ & Henv & Hn).
    rewrite Hlog in Hs, Henv, Hn. simpl in Hs, Henv, Hn.
    destruct (classify (registry options) (normalized e)) as [e' | x].
    + rewrite respond_run. simpl. rewrite Henv.
      assert (Hobj : exists props,
                 body (formatted (verbose_of (NODE_ENV w)) e') = VObj props).
      { unfold formatted. destruct (verbose_of _); [by eexists |].
        destruct (JS.truthy_bool _); by eexists. }
      destruct Hobj as [props Hprops].
      eexists _, props, _. split; [reflexivity |]. simpl.
      rewrite Hs, Hn. repeat split; done.
    + eexists. split; [reflexivity |]. simpl. by rewrite Hs, Hn.
  - intros Hn Hc He Hreg.
    rewrite classify_other_code by done.
    unfold classifyByName. simpl. rewrite Hn, Hreg.
    by rewrite (handleValidationError_no_errors (normalized e)).
Qed.

(** C3 (as amended). Logging runs first and is not isolated from the
    response: when logging is enabled and the log write succeeds, the
    handler completes as it does with logging disabled, emits the same
    response and leaves the error object in the same state; when the log
    write fails, the handler ends with that exception and no response is
    written. *)
Theorem logging_success_keeps_response (on off : ErrorHandlerOptions)
    (l : loc) (req : Request) (w : World) (e : ErrorType) :
  heap w !! l = Some e ->
  default true (enableLogging on) = true ->
  enableLogging off = Some false ->
  customHandlers on = customHandlers off ->
  let with_log := run (handler on l req) w in
  let without_log := run (handler off l req) w in
  match run (logIfEnabled true l req) w with
  | (Normal _, _) =>
      fst with_log = fst without_log
      /\ sent (snd with_log) = sent (snd without_log)
      /\ resStatus (snd with_log) = resStatus (snd without_log)
      /\ heap (snd with_log) = heap (snd without_log)
  | (Throw x, w1) =>
      with_log = (Throw x, w1) /\ sent w1 = sent w /\ heap w1 = heap w
  end.
Proof.
  intros Hl Hon Hoff Hcustom. cbv zeta.
  rewrite !(handler_run _ _ _ _ _ Hl), Hon, Hoff.
  pose proof (logIfEnabled_frame true l req w) as (Hh & Hs & Hr & Henv & _).
  destruct (run (logIfEnabled true l req) w) as [[[] | x] w1];
    simpl in Hh, Hs, Hr, Henv; simpl; [| done].
  unfold handlersOf. rewrite Hcustom.
  destruct (classify _ (normalized e)) as [e' | x]; simpl.
  - rewrite !respond_run. simpl. by rewrite Henv, Hs, Hh.
  - by rewrite Hs, Hr, Hh.
Qed.

(** C8 (as amended). The object handed to classification is the
    normalized one: it carries a status code (500 when the raw error had
    none, or 0; its own code otherwise) and a status category ("error"
    when the raw error had none, or the empty one; its own otherwise).
    An error with a code other than 11000 whose name is neither a
    registered discriminator nor one inherited from [Object.prototype]
    therefore reaches the formatter as normalized: with status code 500
    when it had none (or 0), with its own status code otherwise. *)
Theorem normalize_before_classify (options : ErrorHandlerOptions) (l : loc)
    (req : Request) (w w1 : World) (e : ErrorType) :
  heap w !! l = Some e ->
  run (logIfEnabled (default true (enableLogging options)) l req) w = (Normal tt, w1) ->
  let w2 := with_heap (<[l := normalized e]> (heap w1)) w1 in
  (exists c s,
     statusCode (normalized e) = Some c /\ status (normalized e) = Some s
     /\ (statusCode e = None \/ statusCode e = Some 0 -> c = 500)
     /\ (forall c0, statusCode e = Some c0 -> c0 <> 0 -> c = c0)
     /\ (status e = None \/ status e = Some EmptyString -> s = "error")
     /\ (forall s0, status e = Some s0 -> s0 <> EmptyString -> s = s0))
  /\ (ownKeyDispatch e = true ->
      run (handler options l req) w
      = match classify (registry options) (normalized e) with
        | Normal e' => run (respond e') w2
        | Throw x => (Throw x, w2)
        end)
  /\ (code e <> Some 11000 ->
      isInheritedName (name e) = false ->
      registry options !! name e = None ->
      run (handler options l req) w = run (respond (normalized e)) w2
      /\ exists r,
           snd (run (handler options l req) w) = after_send r w2
           /\ (statusCode e = None \/ statusCode e = Some 0 ->
               sentStatus r = Some 500)
           /\ (forall c0, statusCode e = Some c0 -> c0 <> 0 ->
               NODE_ENV w = Some "development" \/ isOperational e = Some true ->
               sentStatus r = Some c0)).
Proof.
  intros Hl Hlog w2.
  assert (Hkeep : forall c0, statusCode e = Some c0 -> c0 <> 0 ->
            JS.or_num (statusCode e) 500 = c0).
  { intros c0 -> Hne. unfold JS.or_num. apply Z.eqb_neq in Hne. by rewrite Hne. }
  assert (Hdef : statusCode e = None \/ statusCode e = Some 0 ->
            JS.or_num (statusCode e) 500 = 500).
  { by intros [-> | ->]. }
  split; [| split].
  - exists (JS.or_num (statusCode e) 500), (JS.or_str (status e) "error").
    split; [reflexivity |]. split; [reflexivity |].
    split; [exact Hdef |]. split; [exact Hkeep |]. split.
    + by intros [-> | ->].
    + intros s0 -> Hne. by destruct s0.
  - intros _. rewrite (handler_run _ _ _ _ _ Hl), Hlog. simpl.
    destruct (classify _ _); reflexivity.
  - intros Hc _ Hn.
    assert (Hmiss : classify (registry options) (normalized e)
                    = Normal (normalized e)).
    { rewrite classify_other_code by done. unfold classifyByName.
      simpl. by rewrite Hn. }
    pose proof (logIfEnabled_frame (default true (enableLogging options)) l req w)
      as (_ & _ & _ & Henv & _).
    rewrite Hlog in Henv. simpl in Henv.
    rewrite (handler_run _ _ _ _ _ Hl), Hlog. simpl. rewrite Hmiss.
    split; [reflexivity |].
    rewrite respond_run. eexists. split; [reflexivity |].
    unfold formatted, verbose_of. simpl. rewrite Henv. split.
    + intros Hsc. rewrite (Hdef Hsc). simpl.
      destruct (bool_decide _); [reflexivity |].
      destruct (JS.truthy_bool _); reflexivity.
    + intros c0 Hsc Hne Hmode. rewrite (Hkeep c0 Hsc Hne).
      assert (Hc0 : (c0 =? 0)%Z = false) by by apply Z.eqb_neq.
      destruct Hmode as [Hdev | Hop].
      * rewrite bool_decide_eq_true_2 by done. simpl. by rewrite Hc0.
      * destruct (bool_decide _); simpl; [by rewrite Hc0 |].
        by rewrite Hop.
Qed.

(** C10. The handler writes onto the caller's own object: after it
    returns, the reference the caller passed points to the original
    content with [statusCode] set to 500 and [status] set to "error" where
    they were missing, every other field as it was, and no other object
    touched. *)
Theorem normalize_mutates_caller_object (options : ErrorHandlerOptions)
    (l : loc) (req : Request) (w w' : World) (e : ErrorType) :
  heap w !! l = Some e ->
  run (handler options l req) w = (Normal tt, w') ->
  exists e1,
    heap w' !! l = Some e1
    /\ (statusCode e = None -> statusCode e1 = Some 500)
    /\ (status e = None -> status e1 = Some "error")
    /\ statusCode e1 = Some (JS.or_num (statusCode e) 500)
    /\ status e1 = Some (JS.or_str (status e) "error")
    /\ name e1 = name e /\ message e1 = message e /\ stack e1 = stack e
    /\ code e1 = code e /\ isOperational e1 = isOperational e
    /\ errors e1 = errors e /\ keyValue e1 = keyValue e
    /\ path e1 = path e /\ value e1 = value e
    /\ (forall l', l' <> l -> heap w' !! l' = heap w !! l').
Proof.
  intros Hl Hrun. rewrite (handler_run _ _ _ _ _ Hl) in Hrun.
  pose proof (logIfEnabled_frame (default true (enableLogging options)) l req w)
    as (Hh & _).
  destruct (run (logIfEnabled _ l req) w) as [[[] | x] w1]; [| discriminate].
  simpl in Hh, Hrun.
  destruct (classify _ (normalized e)) as [e' | x]; [| discriminate].
  rewrite respond_run in Hrun. injection Hrun as <-. simpl.
  exists (normalized e). rewrite Hh.
  split; [apply lookup_insert_eq |].
  split; [intros H; simpl; rewrite H; reflexivity |].
  split; [intros H; simpl; rewrite H; reflexivity |].
  repeat (split; [reflexivity |]).
  intros l' Hne. by apply lookup_insert_ne.
Qed.

End Properties.

(** ** Worked instances *)

Lemma AppError_new_contract_witness :
  AppError.status (AppError.new sampleTrace "Not found" (Some 404)) = "fail"
  /\ AppError.status (AppError.new sampleTrace "Unavailable" (Some 503)) = "error"
  /\ AppError.status (AppError.new sampleTrace "Redirect" (Some 302)) = "error".
Proof.
  destruct (AppError_new_contract sampleTrace "Not found" 404) as (_ & _ & _ & H1 & _).
  destruct (AppError_new_contract sampleTrace "Unavailable" 503) as (_ & _ & _ & _ & H2 & _).
  destruct (AppError_new_contract sampleTrace "Redirect" 302) as (_ & _ & _ & _ & H3 & _).
  split; [apply H1; lia | split; [apply H2; lia | apply H3; lia]].
Defined.

Lemma classify_code_first_witness :
  exists a,
    classify (mergeHandlers sampleTrace ∅) sampleDuplicate = Normal (of_AppError a)
    /\ AppError.statusCode a = 400
    /\ AppError.isOperational a = true
    /\ AppError.message a
       = "Duplicate field value: {" ++ JS.quote "email" ++ ":" ++ JS.quote "a@b.c" ++ "}".
Proof.
  destruct (classify_code_first sampleTrace ∅ sampleDuplicate) as (_ & H & _).
  destruct (H eq_refl eq_refl eq_refl) as (a & _ & Hc & Hs & Ho & Hm).
  exists a. repeat split; [exact Hc | exact Hs | exact Ho |].
  rewrite Hm. reflexivity.
Defined.

(** With a classifier registered under the name "Error", an error with
    code 11000 is transformed twice: by the duplicate-field classifier and
    then by the one registered for the name of its result.  The outcome
    has status 500 and a message without the payload. *)
Lemma classify_twice_on_duplicate :
  let handlers := mergeHandlers sampleTrace {[ "Error" := genericErrorHandler ]} in
  code sampleDuplicate = Some 11000
  /\ exists a1 a2,
       classifyByCode handlers sampleDuplicate = Normal (of_AppError a1)
       /\ AppError.statusCode a1 = 400
       /\ classifyByName handlers (of_AppError a1) = Normal (of_AppError a2)
       /\ classify handlers sampleDuplicate = Normal (of_AppError a2)
       /\ AppError.statusCode a2 = 500
       /\ AppError.message a2 = "Internal failure"
       /\ of_AppError a2 <> of_AppError a1.
Proof.
  simpl. split; [reflexivity |].
  eexists _, _. split; [reflexivity |]. split; [reflexivity |].
  split; [reflexivity |]. split; [reflexivity |].
  split; [reflexivity |]. split; [reflexivity |]. discriminate.
Qed.

Lemma validation_error_message_witness :
  exists a,
    classify (mergeHandlers sampleTrace ∅) sampleValidation = Normal (of_AppError a)
    /\ AppError.message a = "Invalid input data. A required. B invalid"
    /\ AppError.statusCode a = 400.
Proof.
  destruct (validation_error_message sampleTrace ∅ sampleValidation
              [("a", VObj [("message", VStr "A required")]);
               ("b", VObj [("message", VStr "B invalid")])]
              ["A required"; "B invalid"])
    as (a & Hc & Hm & Hs & _).
  - reflexivity.
  - discriminate.
  - reflexivity.
  - reflexivity.
  - discriminate.
  - repeat constructor; eexists; (split; reflexivity).
  - exists a. repeat split; assumption.
Defined.

(** The specification's example: the message the code produces has no
    final period.  The same error with code 11000 is classified as a
    duplicate field instead, and with a custom classifier registered
    under "ValidationError" it is classified by that one. *)
Lemma validation_example_without_final_period :
  (exists e',
     classify (mergeHandlers sampleTrace ∅) sampleValidation = Normal e'
     /\ statusCode e' = Some 400
     /\ message e' = "Invalid input data. A required. B invalid"
     /\ message e' <> "Invalid input data. A required. B invalid.")
  /\ (exists e',
        classify (mergeHandlers sampleTrace ∅)
                 (with_duplicate VUndefined sampleValidation) = Normal e'
        /\ name (with_duplicate VUndefined sampleValidation) = "ValidationError"
        /\ message e' = "Duplicate field value: undefined")
  /\ (exists e',
        classify (mergeHandlers sampleTrace {[ "ValidationError" := genericErrorHandler ]})
                 sampleValidation = Normal e'
        /\ message e' = "Internal failure"
        /\ statusCode e' = Some 500).
Proof.
  split; [| split].
  - eexists. split; [reflexivity |]. split; [reflexivity |].
    split; [reflexivity | discriminate].
  - eexists. split; [reflexivity |]. split; reflexivity.
  - eexists. split; [reflexivity |]. split; reflexivity.
Qed.


Lemma trace_only_when_verbose_witness :
  let e := plainError "RangeError" "out of range" in
  let w := sampleWorld e emptyDisk (Some "development") in
  exists r,
    sent (snd (run (sendDevError e) w)) = [r]
    /\ JS.get_own "stack" (match body r with VObj props => props | _ => [] end)
       = VStr "Error: out of range"
    /\ responseText r
       = Some ("{" ++ JS.join ","
                        [jsonMember "status" "error";
                         jsonMember "message" "out of range";
                         jsonMember "stack" "Error: out of range"] ++ "}").
Proof.
  cbv zeta.
  destruct (trace_only_when_verbose (plainError "RangeError" "out of range")
              (sampleWorld (plainError "RangeError" "out of range") emptyDisk
                           (Some "development")))
    as [(c & props & Hrun & _ & Hstack & _) _].
  destruct (Hstack "Error: out of range" eq_refl) as [Hget Htext].
  rewrite Hrun. eexists. split; [reflexivity |]. split; [exact Hget | exact Htext].
Defined.

(** An error without a stack, formatted in verbose mode: the payload's
    [stack] is undefined and the JSON text sent has no such member. *)
Lemma verbose_response_without_stack :
  let w := sampleWorld sampleCast emptyDisk (Some "development") in
  stack sampleCast = None
  /\ exists r,
       sent (snd (run (sendDevError sampleCast) w)) = [r]
       /\ JS.get_prop (body r) "stack" = Normal VUndefined
       /\ responseText r
          = Some ("{" ++ JS.join ","
                           [jsonMember "status" "error";
                            jsonMember "message" "Cast to ObjectId failed"] ++ "}").
Proof.
  cbv zeta. split; [reflexivity |].
  eexists. split; [reflexivity |]. split; reflexivity.
Qed.

Lemma nonoperational_is_generic_witness :
  let w := sampleWorld (plainError "RangeError" "db password is hunter2") emptyDisk None in
  sent (snd (run (sendProdError (plainError "RangeError" "db password is hunter2")) w))
  = [{| sentStatus := Some 500;
        body := VObj [("status", VStr "error");
                      ("message", VStr "Something went very wrong!")] |}].
Proof.
  cbv zeta. rewrite nonoperational_is_generic; [reflexivity | discriminate].
Defined.

Lemma handler_responds_once_witness :
  let w := sampleWorld sampleValidation emptyDisk None in
  exists w',
    run (createErrorHandler sampleTrace loggingOff 1%positive sampleRequest) w
    = (Normal tt, w')
    /\ sent w'
       = [{| sentStatus := Some 400;
             body := VObj [("status", VStr "fail");
                           ("message",
                            VStr "Invalid input data. A required. B invalid")] |}].
Proof.
  cbv zeta.
  destruct (handler_responds_once sampleTrace loggingOff 1%positive sampleRequest
              (sampleWorld sampleValidation emptyDisk None)
              (sampleWorld sampleValidation emptyDisk None)
              sampleValidation eq_refl eq_refl eq_refl)
    as [H _].
  destruct H as (r & props & w' & Hrun & Hsent & _ & _ & Hr & _).
  exists w'. split; [exact Hrun |]. rewrite Hsent, Hr. reflexivity.
Defined.

(** A validation failure without [errors]: the built-in classifier throws
    and the handler ends with that exception, no response written. *)
Lemma validation_without_errors_throws :
  let w := sampleWorld bareValidation emptyDisk None in
  let out := run (createErrorHandler sampleTrace loggingOff 1%positive sampleRequest) w in
  name bareValidation = "ValidationError"
  /\ errors bareValidation = VUndefined
  /\ fst out = Throw (TypeError "Cannot convert undefined or null to object")
  /\ sent (snd out) = [].
Proof. repeat split. Qed.

Lemma logging_success_keeps_response_witness :
  let w := sampleWorld sampleDuplicate emptyDisk None in
  let with_log := run (createErrorHandler sampleTrace loggingOn 1%positive sampleRequest) w in
  let without_log := run (createErrorHandler sampleTrace loggingOff 1%positive sampleRequest) w in
  fst with_log = fst without_log
  /\ sent (snd with_log) = sent (snd without_log).
Proof.
  cbv zeta.
  destruct (logging_success_keeps_response sampleTrace loggingOn loggingOff
              1%positive sampleRequest
              (sampleWorld sampleDuplicate emptyDisk None)
              sampleDuplicate eq_refl eq_refl eq_refl eq_refl)
    as (H1 & H2 & _).
  split; [exact H1 | exact H2].
Defined.

(** A log write that fails: [logs] is a plain file, so appending to
    [logs/error.log] throws.  With logging enabled the handler ends with
    that exception and writes nothing; with logging disabled the same
    error gets its response. *)
Lemma failed_log_write_blocks_response :
  let e := plainError "RangeError" "out of range" in
  let w := sampleWorld e blockedDisk None in
  let with_log := run (createErrorHandler sampleTrace loggingOn 1%positive sampleRequest) w in
  let without_log := run (createErrorHandler sampleTrace loggingOff 1%positive sampleRequest) w in
  fst with_log = Throw (SystemError "ENOTDIR")
  /\ sent (snd with_log) = []
  /\ fst without_log = Normal tt
  /\ sent (snd without_log)
     = [{| sentStatus := Some 500;
           body := VObj [("status", VStr "error");
                         ("message", VStr "Something went very wrong!")] |}]
  /\ sent (snd with_log) <> sent (snd without_log).
Proof. repeat split. discriminate. Qed.

Lemma normalize_before_classify_witness :
  let missing := plainError "RangeError" "out of range" in
  let own := set_statusCode 404 (plainError "RangeError" "out of range") in
  sentStatus
    <$> sent (snd (run (createErrorHandler sampleTrace loggingOff 1%positive sampleRequest)
                       (sampleWorld missing emptyDisk (Some "development"))))
  = [Some 500]
  /\ sentStatus
       <$> sent (snd (run (createErrorHandler sampleTrace loggingOff 1%positive
                             sampleRequest)
                          (sampleWorld own emptyDisk (Some "development"))))
     = [Some 404].
Proof.
  cbv zeta. split.
  - destruct (normalize_before_classify sampleTrace loggingOff 1%positive sampleRequest
                (sampleWorld (plainError "RangeError" "out of range") emptyDisk
                             (Some "development"))
                (sampleWorld (plainError "RangeError" "out of range") emptyDisk
                             (Some "development"))
                (plainError "RangeError" "out of range") eq_refl eq_refl)
      as (_ & _ & H).
    destruct H as (_ & r & Hr & H500 & _); [discriminate | reflexivity | reflexivity |].
    rewrite Hr. simpl. by rewrite (H500 (or_introl eq_refl)).
  - destruct (normalize_before_classify sampleTrace loggingOff 1%positive sampleRequest
                (sampleWorld (set_statusCode 404 (plainError "RangeError" "out of range"))
                             emptyDisk (Some "development"))
                (sampleWorld (set_statusCode 404 (plainError "RangeError" "out of range"))
                             emptyDisk (Some "development"))
                (set_statusCode 404 (plainError "RangeError" "out of range"))
                eq_refl eq_refl)
      as (_ & _ & H).
    destruct H as (_ & r & Hr & _ & Hkeep); [discriminate | reflexivity | reflexivity |].
    rewrite Hr. simpl.
    rewrite (Hkeep 404 eq_refl); [reflexivity | discriminate | by left].
Defined.

(** A raw error that has a status code, 0, and that no classifier
    matches: the code is replaced like a missing one, the formatter
    receives 500 and the response, verbose or not, has status 500. *)
Lemma zero_status_code_is_replaced :
  let e := set_statusCode 0 (plainError "RangeError" "out of range") in
  let out env := run (createErrorHandler sampleTrace loggingOff 1%positive sampleRequest)
                     (sampleWorld e emptyDisk env) in
  statusCode e = Some 0
  /\ mergeHandlers sampleTrace ∅ !! name e = None
  /\ statusCode <$> heap (snd (out (Some "development"))) !! 1%positive = Some (Some 500)
  /\ sentStatus <$> sent (snd (out (Some "development"))) = [Some 500]
  /\ sentStatus <$> sent (snd (out None)) = [Some 500].
Proof. repeat split. Qed.

Lemma normalize_mutates_caller_object_witness :
  let e := plainError "RangeError" "out of range" in
  let w := sampleWorld e emptyDisk None in
  exists w' e1,
    run (createErrorHandler sampleTrace loggingOn 1%positive sampleRequest) w
    = (Normal tt, w')
    /\ heap w' !! 1%positive = Some e1
    /\ statusCode e1 = Some 500
    /\ status e1 = Some "error"
    /\ message e1 = "out of range".
Proof.
  cbv zeta.
  destruct (normalize_mutates_caller_object sampleTrace loggingOn 1%positive
              sampleRequest
              (sampleWorld (plainError "RangeError" "out of range") emptyDisk None)
              (snd (run (createErrorHandler sampleTrace loggingOn 1%positive
                           sampleRequest)
                        (sampleWorld (plainError "RangeError" "out of range")
                                     emptyDisk None)))
              (plainError "RangeError" "out of range"))
    as (e1 & Hl & Hsc & Hst & _ & _ & _ & Hm & _).
  - reflexivity.
  - reflexivity.
  - eexists _, e1. split; [reflexivity |]. split; [exact Hl |].
    split; [apply Hsc; reflexivity |]. split; [apply Hst; reflexivity | exact Hm].
Defined.

Example cast_error_example :
  classify (mergeHandlers sampleTrace ∅)
    {| name := "CastError"; message := "Cast to ObjectId failed";
       stack := None; statusCode := None; status := None;
       isOperational := None; code := None; errors := VUndefined;
       path := Some "id"; value := Some "xyz"; keyValue := VUndefined |}
  = Normal (of_AppError (AppError.new sampleTrace "Invalid id: xyz." (Some 400))).
Proof. reflexivity. Qed.

Example token_expired_example :
  classify (mergeHandlers sampleTrace ∅) (plainError "TokenExpiredError" "jwt expired")
  = Normal (of_AppError
              (AppError.new sampleTrace "Token expired. Please log in again." (Some 401))).
Proof. reflexivity. Qed.

Example stringify_example :
  JS.JSON_stringify (VObj [("email", VStr "a@b.c"); ("n", VNum 7); ("u", VUndefined);
                           ("l", VArr [VNull; VUndefined; VBool true])])
  = Some ("{" ++ JS.quote "email" ++ ":" ++ JS.quote "a@b.c" ++ ","
              ++ JS.quote "n" ++ ":7," ++ JS.quote "l" ++ ":[null,null,true]}").
Proof. reflexivity. Qed.

Example unmatched_error_in_production :
  sent (snd (run (createErrorHandler sampleTrace loggingOn 1%positive sampleRequest)
                 (sampleWorld (plainError "RangeError" "out of range") emptyDisk
                              (Some "production"))))
  = [{| sentStatus := Some 500;
        body := VObj [("status", VStr "error");
                      ("message", VStr "Something went very wrong!")] |}].
Proof. reflexivity. Qed.

(** ** Further properties of the handler *)

Section MoreProperties.

Variable captureStackTrace : string -> string.

Local Abbreviation handler := (createErrorHandler captureStackTrace).
Local Abbreviation registry := (handlersOf captureStackTrace).
Local Abbreviation builtins := (defaultHandlers captureStackTrace).

(** *** Logging *)

(** X1. The log is append-only: when [logError] returns, the log file
    holds what it held before (nothing, if it did not exist) followed by
    the record built from the clock, the request and the error. *)
Theorem logError_appends_record (e : ErrorType) (req : Request) (w w' : World) :
  run (logError e req) w = (Normal tt, w') ->
  logContent (fs w') = logContent (fs w) ++ logRecord (now w) req e
  /\ exists dw fw, logs (fs w') = Directory dw (LogFileOf fw (logContent (fs w'))).
Proof.
  unfold run, logError, bind, Date_toISOString, Fs.existsSync_logs,
    Fs.mkdirSync_logs, Fs.appendFileSync_log, ret, logContent, logRecord.
  destruct w as [h [cw lg] t env rs out nx]; simpl.
  destruct lg as [| | dw [| fw c]]; simpl;
    repeat match goal with
           | |- context [if ?b then _ else _] => destruct b; simpl
           end;
    intros H; inversion H; subst; simpl; eauto.
Qed.

(** X2. [logError] creates what is missing: in a writable working
    directory where nothing is named [logs], it returns, and leaves a
    directory [logs] whose log file holds exactly the record; nothing
    but the file system is touched. *)
Theorem logError_creates_directory_when_missing (e : ErrorType) (req : Request)
    (w : World) :
  logs (fs w) = NoEntry ->
  cwdWritable (fs w) = true ->
  exists w',
    run (logError e req) w = (Normal tt, w')
    /\ logs (fs w') = Directory true (LogFileOf true (logRecord (now w) req e))
    /\ heap w' = heap w /\ sent w' = sent w.
Proof.
  unfold run, logError, bind, Date_toISOString, Fs.existsSync_logs,
    Fs.mkdirSync_logs, Fs.appendFileSync_log, ret, logRecord.
  destruct w as [h [cw lg] t env rs out nx]; simpl.
  intros -> ->. simpl. eexists. repeat split.
Qed.

(** X3. The handler's only effect on the file system is the log write:
    with logging disabled the file system is untouched, and with logging
    enabled it is left as [logError] leaves it for the raw error,
    whatever classification and formatting do afterwards. *)
Theorem handler_file_system_effect (options : ErrorHandlerOptions) (l : loc)
    (req : Request) (w : World) (e : ErrorType) :
  heap w !! l = Some e ->
  fs (snd (run (handler options l req) w))
  = if default true (enableLogging options)
    then fs (snd (run (logError e req) w))
    else fs w.
Proof.
  intros Hl. rewrite (handler_run _ _ _ _ _ _ Hl).
  assert (Hlog : run (logIfEnabled (default true (enableLogging options)) l req) w
                 = if default true (enableLogging options)
                   then run (logError e req) w
                   else (Normal tt, w)).
  { destruct (default true (enableLogging options)); [| reflexivity].
    unfold run, logIfEnabled, bind, deref. by rewrite Hl. }
  rewrite Hlog.
  assert (Hrest : forall (c : Completion unit) (w1 : World),
            fs (snd (match c with
                     | Normal _ =>
                         let w2 := with_heap (<[l := normalized e]> (heap w1)) w1 in
                         match classify (registry options) (normalized e) with
                         | Normal e' => run (respond e') w2
                         | Throw x => (Throw x, w2)
                         end
                     | Throw x => (Throw x, w1)
                     end)) = fs w1).
  { intros [[] | x] w1; [| reflexivity]. simpl.
    destruct (classify _ _); [| reflexivity].
    rewrite respond_run. reflexivity. }
  destruct (default true (enableLogging options)).
  - destruct (run (logError e req) w) as [c w1]. apply (Hrest c w1).
  - apply (Hrest (Normal tt) w).
Qed.

(** *** The built-in classifiers *)

Lemma builtins_cases k h :
  builtins !! k = Some h ->
  (k = "CastError" /\ h = handleCastError captureStackTrace)
  \/ (k = "ValidationError" /\ h = handleValidationError captureStackTrace)
  \/ (k = "DuplicateField" /\ h = handleDuplicateField captureStackTrace)
  \/ (k = "JsonWebTokenError" /\ h = handleJsonWebTokenError captureStackTrace)
  \/ (k = "TokenExpiredError" /\ h = handleTokenExpiredError captureStackTrace).
Proof.
  unfold defaultHandlers. intros H.
  repeat (apply lookup_insert_Some in H as [[<- <-] | [_ H]]; [tauto |]).
  by rewrite lookup_empty in H.
Qed.

(** X4. With the built-in cast classifier in place, every raw error named
    "CastError" whose code is not 11000 is classified as the operational
    error "Invalid <path>: <value>." with status 400; a missing [path] or
    [value] is printed as "undefined", it does not make the classifier
    fail. *)
Theorem cast_error_classified (custom : gmap string HandlerFunction) (e : ErrorType) :
  name e = "CastError" ->
  code e <> Some 11000 ->
  custom !! "CastError" = None ->
  exists a,
    classify (mergeHandlers captureStackTrace custom) e = Normal (of_AppError a)
    /\ AppError.message a
       = "Invalid " ++ JS.template_opt_str (path e) ++ ": "
         ++ JS.template_opt_str (value e) ++ "."
    /\ AppError.statusCode a = 400
    /\ AppError.status a = "fail"
    /\ AppError.isOperational a = true
    /\ (path e = None -> value e = None ->
        AppError.message a = "Invalid undefined: undefined.").
Proof.
  intros Hn Hc Hcustom. eexists. split.
  - rewrite classify_other_code by done. unfold classifyByName.
    rewrite Hn, mergeHandlers_miss by done. reflexivity.
  - repeat split. simpl. by intros -> ->.
Qed.

(** X5. The two token classifiers ignore the raw error altogether: an
    error named "JsonWebTokenError" or "TokenExpiredError" (code not
    11000, no custom entry under that name) becomes an operational error
    with status 401 and the fixed message of its kind. *)
Theorem token_errors_classified (custom : gmap string HandlerFunction) (e : ErrorType) :
  code e <> Some 11000 ->
  custom !! name e = None ->
  name e = "JsonWebTokenError" \/ name e = "TokenExpiredError" ->
  exists a,
    classify (mergeHandlers captureStackTrace custom) e = Normal (of_AppError a)
    /\ AppError.statusCode a = 401
    /\ AppError.status a = "fail"
    /\ AppError.isOperational a = true
    /\ AppError.message a
       = if String.eqb (name e) "JsonWebTokenError"
         then "Invalid token. Please log in again."
         else "Token expired. Please log in again.".
Proof.
  intros Hc Hcustom Hn. rewrite classify_other_code by done.
  unfold classifyByName. rewrite mergeHandlers_miss by done.
  destruct Hn as [-> | ->]; eexists; (split; [reflexivity | repeat split]).
Qed.

(** X6. Whatever a built-in classifier returns is an operational client
    error: status 400 or 401, category "fail", [isOperational] true. *)
Theorem builtin_classifiers_yield_client_errors (k : string) (h : HandlerFunction)
    (e : ErrorType) (a : AppError.t) :
  builtins !! k = Some h ->
  h e = Normal a ->
  AppError.isOperational a = true
  /\ AppError.status a = "fail"
  /\ (AppError.statusCode a = 400 \/ AppError.statusCode a = 401)
  /\ AppError.stack a = captureStackTrace (AppError.message a).
Proof.
  intros Hk Ha.
  destruct (builtins_cases _ _ Hk)
    as [[_ ->] | [[_ ->] | [[_ ->] | [[_ ->] | [_ ->]]]]].
  - injection Ha as <-. simpl. tauto.
  - unfold handleValidationError in Ha.
    destruct (JS.Object_values _); [| discriminate].
    destruct (JS.sequence _); [| discriminate].
    destruct (JS.Array_join _ _); [| discriminate].
    injection Ha as <-. simpl. tauto.
  - injection Ha as <-. simpl. tauto.
  - injection Ha as <-. simpl. tauto.
  - injection Ha as <-. simpl. tauto.
Qed.



(** *** The validation classifier on unusual [errors] *)

Lemma Array_join_texts sep (vals : list any) (msgs : list string) :
  Forall2 (fun v m => v = VStr m
                      \/ ((v = VUndefined \/ v = VNull) /\ m = EmptyString))
          vals msgs ->
  JS.Array_join sep vals = Normal (JS.join sep msgs).
Proof.
  intros H. unfold JS.Array_join.
  assert (Hs : JS.sequence
                 (map (fun x => match x with
                                | VUndefined | VNull => Normal EmptyString
                                | _ => JS.ToString x
                                end) vals) = Normal msgs).
  { induction H as [| v m vals msgs Hv _ IH]; [reflexivity |].
    simpl. rewrite IH.
    destruct Hv as [-> | [[-> | ->] ->]]; reflexivity. }
  by rewrite Hs.
Qed.

(** X8. An entry of [errors] without a [message] is not an error for the
    classifier: it contributes the empty string, so the separators stay.
    For entries that are objects whose [message] is a string, undefined
    or null, the message is "Invalid input data. " followed by the texts
    joined with ". ". *)
Theorem validation_entries_without_message (e : ErrorType)
    (props : list (string * any)) (msgs : list string) :
  errors e = VObj props ->
  Forall2 (fun (kv : string * any) (m : string) =>
             exists fields,
               snd kv = VObj fields
               /\ (JS.get_own "message" fields = VStr m
                   \/ ((JS.get_own "message" fields = VUndefined
                        \/ JS.get_own "message" fields = VNull)
                       /\ m = EmptyString))) props msgs ->
  handleValidationError captureStackTrace e
  = Normal (newAppError captureStackTrace
              ("Invalid input data. " ++ JS.join ". " msgs) 400).
Proof.
  intros He Hall. unfold handleValidationError. rewrite He. simpl.
  assert (Hseq : exists vals,
             JS.sequence (map (fun el => JS.get_prop el "message") (map snd props))
             = Normal vals
             /\ Forall2 (fun v m => v = VStr m
                                    \/ ((v = VUndefined \/ v = VNull)
                                        /\ m = EmptyString)) vals msgs).
  { clear He. induction Hall as [| kv m props' msgs' (fields & Hkv & Hm) _ IH].
    - exists []. split; [reflexivity | constructor].
    - destruct IH as (vals & Hvals & HF).
      exists (JS.get_own "message" fields :: vals). split.
      + simpl. rewrite Hkv. simpl. by rewrite Hvals.
      + constructor; [exact Hm | exact HF]. }
  destruct Hseq as (vals & -> & HF).
  by rewrite (Array_join_texts _ _ _ HF).
Qed.

(** X9. When [errors] has no entries at all (an empty object, an empty
    array, the empty string, a number or a boolean) the classifier still
    succeeds, and the message is the bare prefix "Invalid input data. ",
    status 400. *)
Theorem validation_no_entries (e : ErrorType) :
  errors e = VObj [] \/ errors e = VArr [] \/ errors e = VStr EmptyString
  \/ (exists n, errors e = VNum n) \/ (exists b, errors e = VBool b) ->
  handleValidationError captureStackTrace e
  = Normal (newAppError captureStackTrace "Invalid input data. " 400).
Proof.
  unfold handleValidationError.
  intros [-> | [-> | [-> | [[n ->] | [b ->]]]]]; reflexivity.
Qed.

Lemma sequence_throws {A} (l : list (Completion A)) x :
  In (Throw x) l -> exists y, JS.sequence l = Throw y.
Proof.
  induction l as [| c l IH]; [intros [] |].
  intros [-> | Hin]; [by eexists |].
  destruct c as [a | y]; [| by eexists].
  destruct (IH Hin) as [y Hy]. simpl. rewrite Hy. by eexists.
Qed.

(** X10. One bad entry is enough: when [errors] is an object or an array
    holding an undefined or null entry, the validation classifier throws
    a TypeError, whatever the other entries are. *)
Theorem validation_null_entry_throws (e : ErrorType) (vals : list any) :
  JS.Object_values (errors e) = Normal vals ->
  In VUndefined vals \/ In VNull vals ->
  exists what, handleValidationError captureStackTrace e = Throw (TypeError what).
Proof.
  intros Hv Hin. unfold handleValidationError. rewrite Hv.
  assert (Hthrow : exists what,
             JS.sequence (map (fun el => JS.get_prop el "message") vals)
             = Throw (TypeError what)).
  { clear Hv. induction vals as [| v vals IH]; [by destruct Hin |].
    simpl.
    destruct v; simpl; try (by eexists);
      (destruct IH as [what ->];
       [destruct Hin as [[Hin | Hin] | [Hin | Hin]];
        try discriminate; [by left | by right] | by eexists]). }
  destruct Hthrow as [what ->]. by eexists.
Qed.

(** *** The registry *)

(** X11. The registry always holds the five built-in discriminators,
    whatever the caller supplies: its keys are the caller's keys together
    with the built-in ones, so [handlers.DuplicateField] is always
    defined. *)
Theorem registry_domain (custom : gmap string HandlerFunction) :
  dom (mergeHandlers captureStackTrace custom) = dom custom ∪ builtinNames
  /\ is_Some (mergeHandlers captureStackTrace custom !! "DuplicateField").
Proof.
  assert (Hdom : dom builtins = builtinNames).
  { unfold defaultHandlers, builtinNames.
    rewrite !dom_insert_L, dom_empty_L. set_solver. }
  split.
  - unfold mergeHandlers. by rewrite dom_union_L, Hdom.
  - apply elem_of_dom. unfold mergeHandlers.
    rewrite dom_union_L, Hdom. unfold builtinNames. set_solver.
Qed.

(** X12. A classifier supplied under a new discriminator (not a built-in
    one, and not "Error") extends the registry: errors with that name and
    a code other than 11000 are classified by it, and every other error
    whose dispatch stays among the registry's own keys is classified as
    it is without the entry. *)
Theorem custom_extends_registry (k : string) (f : HandlerFunction) :
  builtins !! k = None ->
  k <> AppError.name ->
  let handlers := mergeHandlers captureStackTrace {[ k := f ]} in
  (forall e, name e = k -> code e <> Some 11000 ->
     classify handlers e
     = match f e with
       | Normal a => Normal (of_AppError a)
       | Throw x => Throw x
       end)
  /\ (forall e, name e <> k -> ownKeyDispatch e = true ->
        classify handlers e = classify builtins e).
Proof.
  intros Hk HkE handlers.
  assert (Hmiss : forall k', k' <> k -> handlers !! k' = builtins !! k').
  { intros k' Hne. apply mergeHandlers_miss. by apply lookup_singleton_ne. }
  split.
  - intros e Hn Hc. rewrite classify_other_code by done.
    unfold classifyByName. rewrite Hn. unfold handlers.
    by rewrite (mergeHandlers_hit _ _ _ f) by apply lookup_singleton_eq.
  - intros e Hn _. unfold classify, classifyByCode.
    destruct (decide (code e = Some 11000)) as [Hc | Hc].
    + assert (Hd : "DuplicateField" <> k).
      { intros <-. by rewrite registry_default_DuplicateField in Hk. }
      rewrite (Hmiss _ Hd).
      destruct (builtins !! "DuplicateField") as [h |]; [| done].
      destruct (h e) as [a | x]; [| done].
      unfold classifyByName. simpl.
      by rewrite (Hmiss AppError.name (not_eq_sym HkE)).
    + unfold classifyByName. by rewrite (Hmiss _ Hn).
Qed.

(** *** Responses, end to end *)

(** The run of the handler on an error that no classifier matches. *)
Lemma handler_unmatched options l req w w1 e :
  heap w !! l = Some e ->
  run (logIfEnabled (default true (enableLogging options)) l req) w = (Normal tt, w1) ->
  code e <> Some 11000 ->
  registry options !! name e = None ->
  run (handler options l req) w
  = (Normal tt,
     after_send (formatted (verbose_of (NODE_ENV w)) (normalized e))
                (with_heap (<[l := normalized e]> (heap w1)) w1)).
Proof.
  intros Hl Hlog Hc Hn. rewrite (handler_run _ _ _ _ _ _ Hl), Hlog. simpl.
  pose proof (logIfEnabled_frame (default true (enableLogging options)) l req w)
    as (_ & _ & _ & Henv & _).
  rewrite Hlog in Henv. simpl in Henv.
  rewrite classify_other_code by done. unfold classifyByName. simpl.
  rewrite Hn, respond_run. simpl. by rewrite Henv.
Qed.

(** X13. Outside development mode nothing of an unexpected fault reaches
    the caller: for an error that no classifier matches, whose name is not one
    inherited from [Object.prototype], and that is not
    marked operational, the response is status 500 with the fixed
    payload, whatever the error's message, stack and own status code. *)
Theorem unexpected_error_hidden_in_production (options : ErrorHandlerOptions)
    (l : loc) (req : Request) (w w1 : World) (e : ErrorType) :
  heap w !! l = Some e ->
  run (logIfEnabled (default true (enableLogging options)) l req) w = (Normal tt, w1) ->
  NODE_ENV w <> Some "development" ->
  code e <> Some 11000 ->
  isInheritedName (name e) = false ->
  registry options !! name e = None ->
  isOperational e <> Some true ->
  run (handler options l req) w
  = (Normal tt,
     after_send genericResponse (with_heap (<[l := normalized e]> (heap w1)) w1)).
Proof.
  intros Hl Hlog Henv Hc _ Hn Hop.
  rewrite (handler_unmatched _ _ _ _ _ _ Hl Hlog Hc Hn).
  unfold verbose_of. rewrite bool_decide_eq_false_2 by done.
  unfold formatted. simpl.
  destruct (isOperational e) as [[] |]; simpl; [congruence | reflexivity ..].
Qed.

(** X14. An error that is already operational when it is raised (and whose
    name is neither matched by a classifier nor one inherited from
    [Object.prototype]) passes through: outside development mode the
    response carries its own message, its status code (500 when it has
    none, or 0) and its status (the word error when it has none, or the
    empty one), and no stack. *)
Theorem operational_error_passes_through (options : ErrorHandlerOptions)
    (l : loc) (req : Request) (w w1 : World) (e : ErrorType) :
  heap w !! l = Some e ->
  run (logIfEnabled (default true (enableLogging options)) l req) w = (Normal tt, w1) ->
  NODE_ENV w <> Some "development" ->
  code e <> Some 11000 ->
  isInheritedName (name e) = false ->
  registry options !! name e = None ->
  isOperational e = Some true ->
  run (handler options l req) w
  = (Normal tt,
     after_send {| sentStatus := Some (JS.or_num (statusCode e) 500);
                   body := VObj [("status", VStr (JS.or_str (status e) "error"));
                                 ("message", VStr (message e))] |}
                (with_heap (<[l := normalized e]> (heap w1)) w1)).
Proof.
  intros Hl Hlog Henv Hc _ Hn Hop.
  rewrite (handler_unmatched _ _ _ _ _ _ Hl Hlog Hc Hn).
  unfold verbose_of. rewrite bool_decide_eq_false_2 by done.
  unfold formatted. simpl. by rewrite Hop.
Qed.

(** X15. In development mode an error that no classifier matches, and whose
    name is not one inherited from [Object.prototype], is shown
    as it is, operational or not: its message, its stack, its status code
    (500 when it has none) and its status (the word error when it has
    none). *)
Theorem development_shows_unmatched_error (options : ErrorHandlerOptions)
    (l : loc) (req : Request) (w w1 : World) (e : ErrorType) :
  heap w !! l = Some e ->
  run (logIfEnabled (default true (enableLogging options)) l req) w = (Normal tt, w1) ->
  NODE_ENV w = Some "development" ->
  code e <> Some 11000 ->
  isInheritedName (name e) = false ->
  registry options !! name e = None ->
  run (handler options l req) w
  = (Normal tt,
     after_send {| sentStatus := Some (JS.or_num (statusCode e) 500);
                   body := VObj [("status", VStr (JS.or_str (status e) "error"));
                                 ("message", VStr (message e));
                                 ("stack", JS.of_opt_str (stack e))] |}
                (with_heap (<[l := normalized e]> (heap w1)) w1)).
Proof.
  intros Hl Hlog Henv Hc _ Hn.
  rewrite (handler_unmatched _ _ _ _ _ _ Hl Hlog Hc Hn).
  unfold verbose_of. rewrite bool_decide_eq_true_2 by done.
  unfold formatted, normalized, JS.or_num, JS.or_str. simpl.
  destruct (statusCode e) as [c |]; [destruct (c =? 0)%Z eqn:Hz |];
    destruct (status e) as [[| ch s'] |]; simpl; rewrite ?Hz; reflexivity.
Qed.

(** X16. When a classifier matches by name, the caller sees the
    classifier's result and nothing of the raw error.  The classifier is
    handed the normalized error.  Outside development mode, an
    operational result is answered with its status code, its status and
    its message; in development mode the response carries the result's
    message and the result's own stack. *)
Theorem classified_error_response (options : ErrorHandlerOptions)
    (l : loc) (req : Request) (w w1 : World) (e : ErrorType)
    (h : HandlerFunction) (a : AppError.t) :
  heap w !! l = Some e ->
  run (logIfEnabled (default true (enableLogging options)) l req) w = (Normal tt, w1) ->
  code e <> Some 11000 ->
  registry options !! name e = Some h ->
  h (normalized e) = Normal a ->
  let w2 := with_heap (<[l := normalized e]> (heap w1)) w1 in
  (NODE_ENV w <> Some "development" ->
   AppError.isOperational a = true ->
   run (handler options l req) w
   = (Normal tt,
      after_send {| sentStatus := Some (AppError.statusCode a);
                    body := VObj [("status", VStr (AppError.status a));
                                  ("message", VStr (AppError.message a))] |} w2))
  /\ (NODE_ENV w = Some "development" ->
      run (handler options l req) w
      = (Normal tt,
         after_send {| sentStatus := Some (JS.or_num (Some (AppError.statusCode a)) 500);
                       body := VObj [("status",
                                      VStr (JS.or_str (Some (AppError.status a)) "error"));
                                     ("message", VStr (AppError.message a));
                                     ("stack", VStr (AppError.stack a))] |} w2)).
Proof.
  intros Hl Hlog Hc Hn Ha w2.
  assert (Hrun : run (handler options l req) w
                 = (Normal tt,
                    after_send (formatted (verbose_of (NODE_ENV w)) (of_AppError a)) w2)).
  { rewrite (handler_run _ _ _ _ _ _ Hl), Hlog. simpl.
    pose proof (logIfEnabled_frame (default true (enableLogging options)) l req w)
      as (_ & _ & _ & Henv & _).
    rewrite Hlog in Henv. simpl in Henv.
    rewrite classify_other_code by done. unfold classifyByName. simpl.
    rewrite Hn, Ha.
    rewrite respond_run. simpl. by rewrite Henv. }
  rewrite Hrun. split.
  - intros Henv Hop. unfold verbose_of. rewrite bool_decide_eq_false_2 by done.
    unfold formatted. simpl. by rewrite Hop.
  - intros Henv. unfold verbose_of. by rewrite bool_decide_eq_true_2 by done.
Qed.

(** *** Normalization *)

Lemma normalized_idempotent e : normalized (normalized e) = normalized e.
Proof.
  unfold normalized, set_status, set_statusCode. simpl. f_equal.
  - unfold JS.or_num. destruct (statusCode e) as [c |]; [| reflexivity].
    destruct (c =? 0)%Z eqn:Hz; [reflexivity | by rewrite Hz].
  - unfold JS.or_str. destruct (status e) as [[| c s'] |]; reflexivity.
Qed.

(** X17. Once the handler is past logging, the caller's object carries a
    status code that is not 0 and a status that is not empty: a code of 0
    and an empty status are replaced like missing ones (by 500 and the
    word error), every other value is kept as it is, whether or not it is
    a sensible HTTP status. *)
Theorem normalization_replaces_falsy_values (options : ErrorHandlerOptions)
    (l : loc) (req : Request) (w w1 : World) (e : ErrorType) :
  heap w !! l = Some e ->
  run (logIfEnabled (default true (enableLogging options)) l req) w = (Normal tt, w1) ->
  exists c s e1,
    heap (snd (run (handler options l req) w)) !! l = Some e1
    /\ statusCode e1 = Some c /\ status e1 = Some s
    /\ c <> 0 /\ s <> EmptyString
    /\ (statusCode e = Some 0 -> c = 500)
    /\ (status e = Some EmptyString -> s = "error")
    /\ (forall c0, statusCode e = Some c0 -> c0 <> 0 -> c = c0)
    /\ (forall s0, status e = Some s0 -> s0 <> EmptyString -> s = s0).
Proof.
  intros Hl Hlog.
  assert (Hheap : heap (snd (run (handler options l req) w)) !! l
                  = Some (normalized e)).
  { rewrite (handler_run _ _ _ _ _ _ Hl), Hlog. simpl.
    destruct (classify _ _); [rewrite respond_run |]; simpl;
      apply lookup_insert_eq. }
  exists (JS.or_num (statusCode e) 500), (JS.or_str (status e) "error"),
         (normalized e).
  split; [exact Hheap |]. split; [reflexivity |]. split; [reflexivity |].
  unfold JS.or_num, JS.or_str. repeat split.
  - destruct (statusCode e) as [c |]; [| done].
    destruct (c =? 0)%Z eqn:Hz; [done |]. by apply Z.eqb_neq in Hz.
  - by destruct (status e) as [[| c s'] |].
  - by intros ->.
  - by intros ->.
  - intros c0 -> Hne. apply Z.eqb_neq in Hne. by rewrite Hne.
  - intros s0 -> Hne. by destruct s0.
Qed.

(** X18. Handling the same error object again changes nothing on it: after
    a first run that returned, a second run of any handler of this factory
    on the same reference leaves the heap as the first run left it. *)
Theorem second_handling_leaves_object_unchanged
    (options options' : ErrorHandlerOptions) (l : loc) (req req' : Request)
    (w w' : World) (e : ErrorType) :
  heap w !! l = Some e ->
  run (handler options l req) w = (Normal tt, w') ->
  heap (snd (run (handler options' l req') w')) = heap w'.
Proof.
  intros Hl Hrun.
  assert (Hw' : heap w' !! l = Some (normalized e)).
  { rewrite (handler_run _ _ _ _ _ _ Hl) in Hrun.
    destruct (run (logIfEnabled _ l req) w) as [[[] | x] w1]; [| discriminate].
    simpl in Hrun.
    destruct (classify _ (normalized e)) as [e' | x]; [| discriminate].
    rewrite respond_run in Hrun. injection Hrun as <-. simpl.
    apply lookup_insert_eq. }
  rewrite (handler_run _ _ _ _ _ _ Hw').
  pose proof (logIfEnabled_frame (default true (enableLogging options')) l req' w')
    as (Hh & _).
  destruct (run (logIfEnabled _ l req') w') as [[[] | x] w1]; simpl in Hh;
    [| exact Hh].
  simpl. rewrite normalized_idempotent.
  assert (Hid : <[l := normalized e]> (heap w1) = heap w').
  { rewrite Hh. by apply insert_id. }
  destruct (classify _ (normalized e)) as [e' | x];
    [rewrite respond_run |]; simpl; exact Hid.
Qed.

(** *** The duplicate-field classifier *)

(** X19. The duplicate-field classifier is reached by code or by name: an
    error with code 11000, or one named "DuplicateField", is classified
    by it (nothing custom under "DuplicateField" or "Error").  A missing
    [keyValue] does not make it fail: the message then reads
    "Duplicate field value: undefined". *)
Theorem duplicate_field_by_code_or_name (custom : gmap string HandlerFunction)
    (e : ErrorType) :
  code e = Some 11000 \/ name e = "DuplicateField" ->
  custom !! "DuplicateField" = None ->
  custom !! AppError.name = None ->
  exists a,
    classify (mergeHandlers captureStackTrace custom) e = Normal (of_AppError a)
    /\ handleDuplicateField captureStackTrace e = Normal a
    /\ AppError.statusCode a = 400
    /\ AppError.status a = "fail"
    /\ (keyValue e = VUndefined ->
        AppError.message a = "Duplicate field value: undefined").
Proof.
  intros Hd Hc1 Hc2.
  assert (Hdup : mergeHandlers captureStackTrace custom !! "DuplicateField"
                 = Some (handleDuplicateField captureStackTrace)).
  { rewrite mergeHandlers_miss by done. apply registry_default_DuplicateField. }
  assert (Herr : mergeHandlers captureStackTrace custom !! AppError.name = None).
  { rewrite mergeHandlers_miss by done. apply registry_default_Error. }
  eexists. split; [| split; [reflexivity | repeat split]].
  - destruct (decide (code e = Some 11000)) as [Hc | Hc].
    + erewrite classify_duplicate_code by (try eassumption; reflexivity).
      unfold classifyByName. simpl. by rewrite Herr.
    + destruct Hd as [Hd | Hd]; [contradiction |].
      rewrite classify_other_code by done.
      unfold classifyByName. by rewrite Hd, Hdup.
  - simpl. by intros ->.
Qed.

End MoreProperties.

(** ** Worked instances of the further properties *)

Lemma logError_appends_record_witness :
  let e := plainError "RangeError" "out of range" in
  let w := sampleWorld e usedDisk None in
  logContent (fs (snd (run (logError e sampleRequest) w)))
  = "earlier records" ++ logRecord "2024-01-01T00:00:00.000Z" sampleRequest e.
Proof.
  cbv zeta.
  destruct (logError_appends_record (plainError "RangeError" "out of range")
              sampleRequest
              (sampleWorld (plainError "RangeError" "out of range") usedDisk None)
              (snd (run (logError (plainError "RangeError" "out of range")
                                  sampleRequest)
                        (sampleWorld (plainError "RangeError" "out of range")
                                     usedDisk None)))
              eq_refl) as [H _].
  exact H.
Defined.

Lemma logError_creates_directory_when_missing_witness :
  let e := plainError "RangeError" "out of range" in
  let w := sampleWorld e emptyDisk None in
  exists w', run (logError e sampleRequest) w = (Normal tt, w')
             /\ logs (fs w')
                = Directory true
                    (LogFileOf true
                       (logRecord "2024-01-01T00:00:00.000Z" sampleRequest e)).
Proof.
  cbv zeta.
  destruct (logError_creates_directory_when_missing
              (plainError "RangeError" "out of range") sampleRequest
              (sampleWorld (plainError "RangeError" "out of range") emptyDisk None)
              eq_refl eq_refl)
    as (w' & Hrun & Hlogs & _).
  exists w'. split; [exact Hrun | exact Hlogs].
Defined.

Lemma handler_file_system_effect_witness :
  let e := plainError "RangeError" "out of range" in
  let w := sampleWorld e usedDisk None in
  fs (snd (run (createErrorHandler sampleTrace loggingOff 1%positive sampleRequest) w))
  = usedDisk
  /\ logContent
       (fs (snd (run (createErrorHandler sampleTrace noOptions 1%positive
                        sampleRequest) w)))
     = "earlier records" ++ logRecord "2024-01-01T00:00:00.000Z" sampleRequest e.
Proof.
  cbv zeta. split.
  - rewrite (handler_file_system_effect sampleTrace loggingOff 1%positive
               sampleRequest (sampleWorld (plainError "RangeError" "out of range") usedDisk None)
               (plainError "RangeError" "out of range") eq_refl).
    reflexivity.
  - rewrite (handler_file_system_effect sampleTrace noOptions 1%positive
               sampleRequest (sampleWorld (plainError "RangeError" "out of range") usedDisk None)
               (plainError "RangeError" "out of range") eq_refl).
    reflexivity.
Defined.

Lemma cast_error_classified_witness :
  exists a,
    classify (mergeHandlers sampleTrace ∅) sampleCast = Normal (of_AppError a)
    /\ AppError.message a = "Invalid id: xyz."
    /\ AppError.statusCode a = 400.
Proof.
  destruct (cast_error_classified sampleTrace ∅ sampleCast eq_refl)
    as (a & Hc & Hm & Hs & _); [discriminate | reflexivity |].
  exists a. split; [exact Hc |]. split; [rewrite Hm; reflexivity | exact Hs].
Defined.

Lemma token_errors_classified_witness :
  exists a,
    classify (mergeHandlers sampleTrace ∅) (plainError "TokenExpiredError" "jwt expired")
    = Normal (of_AppError a)
    /\ AppError.statusCode a = 401
    /\ AppError.message a = "Token expired. Please log in again.".
Proof.
  destruct (token_errors_classified sampleTrace ∅
              (plainError "TokenExpiredError" "jwt expired"))
    as (a & Hc & Hs & _ & _ & Hm); [discriminate | reflexivity | by right |].
  exists a. split; [exact Hc |]. split; [exact Hs | rewrite Hm; reflexivity].
Defined.

Lemma builtin_classifiers_yield_client_errors_witness :
  let a := AppError.new sampleTrace "Invalid id: xyz." (Some 400) in
  AppError.isOperational a = true /\ AppError.status a = "fail".
Proof.
  cbv zeta.
  destruct (builtin_classifiers_yield_client_errors sampleTrace "CastError"
              (handleCastError sampleTrace) sampleCast
              (AppError.new sampleTrace "Invalid id: xyz." (Some 400))
              eq_refl eq_refl) as (H1 & H2 & _).
  split; [exact H1 | exact H2].
Defined.


Lemma validation_entries_without_message_witness :
  handleValidationError sampleTrace partialValidation
  = Normal (newAppError sampleTrace "Invalid input data. . B invalid" 400).
Proof.
  apply (validation_entries_without_message sampleTrace partialValidation
           [("a", VObj []); ("b", VObj [("message", VStr "B invalid")])]
           [EmptyString; "B invalid"] eq_refl).
  constructor; [| constructor; [| constructor]].
  - exists []. split; [reflexivity |]. right. split; [by left | reflexivity].
  - eexists. split; [reflexivity |]. by left.
Defined.

Lemma validation_no_entries_witness :
  handleValidationError sampleTrace
    (with_errors (VObj []) (plainError "ValidationError" "Validation failed"))
  = Normal (newAppError sampleTrace "Invalid input data. " 400).
Proof.
  apply (validation_no_entries sampleTrace). by left.
Defined.

Lemma validation_null_entry_throws_witness :
  exists what,
    handleValidationError sampleTrace brokenValidation = Throw (TypeError what).
Proof.
  apply (validation_null_entry_throws sampleTrace brokenValidation
           [VObj [("message", VStr "A required")]; VNull] eq_refl).
  right. right. by left.
Defined.

Lemma custom_extends_registry_witness :
  let handlers := mergeHandlers sampleTrace {[ "PaymentError" := genericErrorHandler ]} in
  classify handlers (plainError "PaymentError" "card declined")
  = Normal (of_AppError (AppError.new sampleTrace "Internal failure" (Some 500)))
  /\ classify handlers sampleCast = classify (defaultHandlers sampleTrace) sampleCast.
Proof.
  cbv zeta.
  destruct (custom_extends_registry sampleTrace "PaymentError" genericErrorHandler)
    as [H1 H2]; [reflexivity | discriminate |].
  split.
  - rewrite H1; [reflexivity | reflexivity | discriminate].
  - apply H2; [discriminate | reflexivity].
Defined.

Lemma unexpected_error_hidden_in_production_witness :
  let e := plainError "RangeError" "db password is hunter2" in
  let w := sampleWorld e emptyDisk (Some "production") in
  sent (snd (run (createErrorHandler sampleTrace loggingOff 1%positive sampleRequest) w))
  = [genericResponse].
Proof.
  cbv zeta.
  rewrite (unexpected_error_hidden_in_production sampleTrace loggingOff 1%positive
             sampleRequest
             (sampleWorld (plainError "RangeError" "db password is hunter2") emptyDisk (Some "production"))
             (sampleWorld (plainError "RangeError" "db password is hunter2") emptyDisk (Some "production"))
             (plainError "RangeError" "db password is hunter2")
             eq_refl eq_refl);
    [reflexivity | discriminate | discriminate | reflexivity | reflexivity
    | discriminate].
Defined.

Lemma operational_error_passes_through_witness :
  let e := raisedAppError "No such user" 404 in
  let w := sampleWorld e emptyDisk None in
  sent (snd (run (createErrorHandler sampleTrace loggingOff 1%positive sampleRequest) w))
  = [{| sentStatus := Some 404;
        body := VObj [("status", VStr "fail"); ("message", VStr "No such user")] |}].
Proof.
  cbv zeta.
  rewrite (operational_error_passes_through sampleTrace loggingOff 1%positive
             sampleRequest
             (sampleWorld (raisedAppError "No such user" 404) emptyDisk None)
             (sampleWorld (raisedAppError "No such user" 404) emptyDisk None)
             (raisedAppError "No such user" 404)
             eq_refl eq_refl);
    [reflexivity | discriminate | discriminate | reflexivity | reflexivity
    | reflexivity].
Defined.

Lemma development_shows_unmatched_error_witness :
  let e := plainError "RangeError" "out of range" in
  let w := sampleWorld e emptyDisk (Some "development") in
  sent (snd (run (createErrorHandler sampleTrace loggingOff 1%positive sampleRequest) w))
  = [{| sentStatus := Some 500;
        body := VObj [("status", VStr "error");
                      ("message", VStr "out of range");
                      ("stack", VStr "Error: out of range")] |}].
Proof.
  cbv zeta.
  rewrite (development_shows_unmatched_error sampleTrace loggingOff 1%positive
             sampleRequest
             (sampleWorld (plainError "RangeError" "out of range") emptyDisk (Some "development"))
             (sampleWorld (plainError "RangeError" "out of range") emptyDisk (Some "development"))
             (plainError "RangeError" "out of range")
             eq_refl eq_refl);
    [reflexivity | reflexivity | discriminate | reflexivity | reflexivity].
Defined.

Lemma classified_error_response_witness :
  let w := sampleWorld sampleCast emptyDisk (Some "production") in
  sent (snd (run (createErrorHandler sampleTrace loggingOff 1%positive sampleRequest) w))
  = [{| sentStatus := Some 400;
        body := VObj [("status", VStr "fail");
                      ("message", VStr "Invalid id: xyz.")] |}].
Proof.
  cbv zeta.
  destruct (classified_error_response sampleTrace loggingOff 1%positive
              sampleRequest (sampleWorld sampleCast emptyDisk (Some "production"))
              (sampleWorld sampleCast emptyDisk (Some "production"))
              sampleCast (handleCastError sampleTrace)
              (AppError.new sampleTrace "Invalid id: xyz." (Some 400))
              eq_refl eq_refl)
    as [H _]; [discriminate | reflexivity | reflexivity |].
  rewrite H; [reflexivity | discriminate | reflexivity].
Defined.

Lemma normalization_replaces_falsy_values_witness :
  let e := set_status EmptyString (set_statusCode 0 (plainError "RangeError" "out of range")) in
  let w := sampleWorld e emptyDisk None in
  exists e1,
    heap (snd (run (createErrorHandler sampleTrace loggingOff 1%positive sampleRequest) w))
      !! 1%positive = Some e1
    /\ statusCode e1 = Some 500 /\ status e1 = Some "error".
Proof.
  cbv zeta.
  destruct (normalization_replaces_falsy_values sampleTrace loggingOff 1%positive
              sampleRequest
              (sampleWorld (set_status EmptyString
                              (set_statusCode 0 (plainError "RangeError" "out of range")))
                           emptyDisk None)
              (sampleWorld (set_status EmptyString
                              (set_statusCode 0 (plainError "RangeError" "out of range")))
                           emptyDisk None)
              (set_status EmptyString
                 (set_statusCode 0 (plainError "RangeError" "out of range")))
              eq_refl eq_refl)
    as (c & s & e1 & Hl & Hc & Hs & _ & _ & Hc0 & Hs0 & _).
  exists e1. split; [exact Hl |].
  rewrite Hc, Hs, (Hc0 eq_refl), (Hs0 eq_refl). split; reflexivity.
Defined.

Lemma second_handling_leaves_object_unchanged_witness :
  let e := plainError "RangeError" "out of range" in
  let w := sampleWorld e emptyDisk None in
  let w' := snd (run (createErrorHandler sampleTrace loggingOff 1%positive sampleRequest) w) in
  heap (snd (run (createErrorHandler sampleTrace loggingOn 1%positive sampleRequest) w'))
  = heap w'.
Proof.
  cbv zeta.
  apply (second_handling_leaves_object_unchanged sampleTrace loggingOff loggingOn
           1%positive sampleRequest sampleRequest
           (sampleWorld (plainError "RangeError" "out of range") emptyDisk None)
           _ (plainError "RangeError" "out of range") eq_refl eq_refl).
Defined.

Lemma duplicate_field_by_code_or_name_witness :
  exists a,
    classify (mergeHandlers sampleTrace ∅) (plainError "DuplicateField" "duplicate")
    = Normal (of_AppError a)
    /\ AppError.message a = "Duplicate field value: undefined".
Proof.
  destruct (duplicate_field_by_code_or_name sampleTrace ∅
              (plainError "DuplicateField" "duplicate"))
    as (a & Hc & _ & _ & _ & Hm); [by right | reflexivity | reflexivity |].
  exists a. split; [exact Hc | exact (Hm eq_refl)].
Defined.
